(** * water4.ino: greenhouse watering controller (Teensy LC)

    A shallow embedding of the sketch [water4.ino]: its constants and global
    variables, the Arduino primitives it calls, [light], [setup] and [loop],
    followed by the properties of the control loop. *)

From Stdlib Require Import ZArith List Bool String Lia.
Import ListNotations.
Local Open Scope Z_scope.

(** ** Machine integers

    The sketch targets the Teensy LC (ARM Cortex-M0+): [int] and [long] are
    32-bit two's complement, [unsigned long] is 32-bit.  Arithmetic is done
    on [Z] and wrapped back into range after every operation. *)

Module Int32.

Definition modulus : Z := 2 ^ 32.
Definition half_modulus : Z := 2 ^ 31.

(** Wrap into the signed range [-2^31, 2^31). *)
Definition wrap (x : Z) : Z :=
  (x + half_modulus) mod modulus - half_modulus.

(** Conversion to [unsigned long]. *)
Definition to_unsigned (x : Z) : Z := x mod modulus.

Definition add (x y : Z) : Z := wrap (x + y).
Definition sub (x y : Z) : Z := wrap (x - y).
Definition mul (x y : Z) : Z := wrap (x * y).
(** C division truncates towards zero. *)
Definition div (x y : Z) : Z := wrap (Z.quot x y).
Definition rem (x y : Z) : Z := wrap (Z.rem x y).

Definition in_range (x : Z) : Prop := - half_modulus <= x < half_modulus.

End Int32.

(** ** Constants of the sketch *)

Definition int_led : Z := 13.
Definition signal_led : Z := 21.
Definition pump : Z := 7.
Definition prime_switch : Z := 20.
Definition empty_switch : Z := 22.
Definition reset_switch : Z := 23.
(** Modelled from the spec: the analog pin aliases [A0] and [A1] come from the
    board's core headers; on the Teensy LC they are the pins 14 and 15. *)
Definition A0 : Z := 14.
Definition A1 : Z := 15.
Definition ldr : Z := A0.
Definition pump_res : Z := A1.
Definition dark_thresh : Z := 512.
Definition disp_D4 : Z := 0.
Definition disp_D5 : Z := 1.
Definition disp_D6 : Z := 2.
Definition disp_D7 : Z := 3.
Definition disp_RS : Z := 4.
Definition disp_EN : Z := 5.
Definition disp_present : Z := 8.
Definition min_time : Z := 5000.
Definition max_time : Z := 600000.
Definition cycle_time : Z := 3600000.
Definition led_on_pumping : Z := 500.
Definition led_on_idle : Z := 10.
Definition led_off_pumping : Z := 1500.
Definition led_off_idle : Z := 2000.

(** Levels and pin modes of the Arduino core. *)
Definition LOW : Z := 0.
Definition HIGH : Z := 1.

(** ** Pump on-time

    [pump_time = min_time + ((max_time - min_time) * pump_res_val / 1023)],
    evaluated left to right in [int] arithmetic. *)

Definition pump_time_of (pump_res_val : Z) : Z :=
  Int32.add min_time
    (Int32.div (Int32.mul (Int32.sub max_time min_time) pump_res_val) 1023).

(** The formula of the specification, over unbounded integers. *)
Definition pump_time_formula (r : Z) : Z := 5000 + (595000 * r) / 1023.


(** ** Observable events

    Every call that reaches the outside world (or the Chrono objects) is
    recorded, oldest first, in the machine's trace. *)

Inductive PinMode := OUTPUT | INPUT | INPUT_PULLUP.
Inductive IrqMode := FALLING | CHANGE.
Inductive ChronoId := LedChrono | PumpChrono.

Inductive Event :=
| EvPinMode (pin : Z) (mode : PinMode)
| EvDigitalWrite (pin level : Z)
| EvDelay (ms : Z)
| EvAttachInterrupt (pin : Z) (mode : IrqMode)
| EvChronoRestart (c : ChronoId)
| EvSerialBegin (baud : Z)
| EvSerialWrite (byte : Z)
| EvSerialPrintlnInt (n : Z)
| EvSerialPrintlnStr (s : string)
| EvLcdClear
| EvLcdBegin (cols rows : Z)
| EvLcdSetCursor (col row : Z)
| EvLcdPrintInt (n : Z)
| EvLcdPrintStr (s : string)
| EvSystemReset.

(** ** Machine state *)

(** Modelled from the spec: the Chrono library is not part of the sketch.  A
    chrono is an elapsed-time tracker: it remembers the time of its last
    restart and compares [current_time - last_restart_time] with a
    threshold. *)
Record Chrono := mkChrono { startTime : Z }.

Record Machine := mkMachine {
  (* global variables of the sketch *)
  pump_res_val : Z;
  pump_time : Z;
  pump_state : bool;
  led_state : bool;
  diag_mode : bool;
  next_led_event : Z;
  next_pump_event : Z;
  led_chrono : Chrono;
  pump_chrono : Chrono;
  (* the board: clock, input pins, output latches, trace of events *)
  millis : Z;
  digital_in : Z -> Z;
  analog_in : Z -> Z;
  pin_out : Z -> Z;
  trace : list Event
}.

Definition set_pump_res_val (v : Z) (m : Machine) : Machine :=
  mkMachine v (pump_time m) (pump_state m) (led_state m) (diag_mode m)
    (next_led_event m) (next_pump_event m) (led_chrono m) (pump_chrono m)
    (millis m) (digital_in m) (analog_in m) (pin_out m) (trace m).

Definition set_pump_time (v : Z) (m : Machine) : Machine :=
  mkMachine (pump_res_val m) v (pump_state m) (led_state m) (diag_mode m)
    (next_led_event m) (next_pump_event m) (led_chrono m) (pump_chrono m)
    (millis m) (digital_in m) (analog_in m) (pin_out m) (trace m).

Definition set_pump_state (v : bool) (m : Machine) : Machine :=
  mkMachine (pump_res_val m) (pump_time m) v (led_state m) (diag_mode m)
    (next_led_event m) (next_pump_event m) (led_chrono m) (pump_chrono m)
    (millis m) (digital_in m) (analog_in m) (pin_out m) (trace m).

Definition set_led_state (v : bool) (m : Machine) : Machine :=
  mkMachine (pump_res_val m) (pump_time m) (pump_state m) v (diag_mode m)
    (next_led_event m) (next_pump_event m) (led_chrono m) (pump_chrono m)
    (millis m) (digital_in m) (analog_in m) (pin_out m) (trace m).

Definition set_diag_mode (v : bool) (m : Machine) : Machine :=
  mkMachine (pump_res_val m) (pump_time m) (pump_state m) (led_state m) v
    (next_led_event m) (next_pump_event m) (led_chrono m) (pump_chrono m)
    (millis m) (digital_in m) (analog_in m) (pin_out m) (trace m).

Definition set_next_led_event (v : Z) (m : Machine) : Machine :=
  mkMachine (pump_res_val m) (pump_time m) (pump_state m) (led_state m)
    (diag_mode m) v (next_pump_event m) (led_chrono m) (pump_chrono m)
    (millis m) (digital_in m) (analog_in m) (pin_out m) (trace m).

Definition set_next_pump_event (v : Z) (m : Machine) : Machine :=
  mkMachine (pump_res_val m) (pump_time m) (pump_state m) (led_state m)
    (diag_mode m) (next_led_event m) v (led_chrono m) (pump_chrono m)
    (millis m) (digital_in m) (analog_in m) (pin_out m) (trace m).

Definition set_led_chrono (v : Chrono) (m : Machine) : Machine :=
  mkMachine (pump_res_val m) (pump_time m) (pump_state m) (led_state m)
    (diag_mode m) (next_led_event m) (next_pump_event m) v (pump_chrono m)
    (millis m) (digital_in m) (analog_in m) (pin_out m) (trace m).

Definition set_pump_chrono (v : Chrono) (m : Machine) : Machine :=
  mkMachine (pump_res_val m) (pump_time m) (pump_state m) (led_state m)
    (diag_mode m) (next_led_event m) (next_pump_event m) (led_chrono m) v
    (millis m) (digital_in m) (analog_in m) (pin_out m) (trace m).

Definition set_millis (v : Z) (m : Machine) : Machine :=
  mkMachine (pump_res_val m) (pump_time m) (pump_state m) (led_state m)
    (diag_mode m) (next_led_event m) (next_pump_event m) (led_chrono m)
    (pump_chrono m) v (digital_in m) (analog_in m) (pin_out m) (trace m).

Definition set_pin_out (v : Z -> Z) (m : Machine) : Machine :=
  mkMachine (pump_res_val m) (pump_time m) (pump_state m) (led_state m)
    (diag_mode m) (next_led_event m) (next_pump_event m) (led_chrono m)
    (pump_chrono m) (millis m) (digital_in m) (analog_in m) v (trace m).

Definition set_trace (v : list Event) (m : Machine) : Machine :=
  mkMachine (pump_res_val m) (pump_time m) (pump_state m) (led_state m)
    (diag_mode m) (next_led_event m) (next_pump_event m) (led_chrono m)
    (pump_chrono m) (millis m) (digital_in m) (analog_in m) (pin_out m) v.

(** ** The monad of the sketch

    A computation threads the machine state.  It either finishes with a value
    or is still inside a loop when the fuel given to that loop is used up. *)

Inductive Result (A : Type) :=
| Done (a : A) (m : Machine)
| Spinning (m : Machine).
Arguments Done {A} a m.
Arguments Spinning {A} m.

Definition M (A : Type) : Type := Machine -> Result A.

Definition ret {A} (a : A) : M A := fun m => Done a m.

Definition bind {A B} (c : M A) (k : A -> M B) : M B :=
  fun m => match c m with
           | Done a m' => k a m'
           | Spinning m' => Spinning m'
           end.

Declare Scope sketch_scope.
Delimit Scope sketch_scope with sketch.
Notation "x <- c ;; k" := (bind c (fun x => k))
  (at level 61, c at next level, right associativity) : sketch_scope.
Notation "c ;; k" := (bind c (fun _ => k))
  (at level 61, right associativity) : sketch_scope.
Local Open Scope sketch_scope.

Definition gets {A} (f : Machine -> A) : M A := fun m => Done (f m) m.
Definition modify (f : Machine -> Machine) : M unit := fun m => Done tt (f m).
Definition emit (e : Event) : M unit :=
  modify (fun m => set_trace (trace m ++ [e]) m).

(** [while (cond) body] with a bound on the number of iterations. *)
Fixpoint while_ (fuel : nat) (cond : M bool) (body : M unit) : M unit :=
  fun m =>
    match fuel with
    | O => Spinning m
    | S fuel' =>
        match cond m with
        | Done true m1 =>
            match body m1 with
            | Done _ m2 => while_ fuel' cond body m2
            | Spinning m2 => Spinning m2
            end
        | Done false m1 => Done tt m1
        | Spinning m1 => Spinning m1
        end
    end.

(** [for (i = start; ...; i++) body], [n] iterations. *)
Fixpoint for_ (n : nat) (start : Z) (body : Z -> M unit) : M unit :=
  match n with
  | O => ret tt
  | S n' => body start ;; for_ n' (start + 1) body
  end.

(** ** Arduino primitives

    Modelled from the spec: the hardware abstraction layer (pin I/O,
    analog-to-digital conversion, delays, the serial port and the character
    display) is external to the sketch.  Inputs are sampled from the machine's
    input pins, outputs update the output latches and are recorded in the
    trace.  The clock advances in [delay] only: the other calls are taken to
    be instantaneous, so that all the timer queries of one pass of [loop]
    see the same time. *)

Definition level_of (v : Z) : Z := if v =? 0 then LOW else HIGH.

Definition upd (f : Z -> Z) (pin v : Z) : Z -> Z :=
  fun q => if q =? pin then v else f q.

Definition pinMode (pin : Z) (mode : PinMode) : M unit :=
  emit (EvPinMode pin mode).

Definition digitalRead (pin : Z) : M Z :=
  gets (fun m => level_of (digital_in m pin)).

Definition digitalReadFast (pin : Z) : M Z := digitalRead pin.

Definition digitalWrite (pin v : Z) : M unit :=
  modify (fun m => set_pin_out (upd (pin_out m) pin (level_of v)) m) ;;
  emit (EvDigitalWrite pin (level_of v)).

(** The converter delivers 10 bits. *)
Definition analogRead (pin : Z) : M Z :=
  gets (fun m => analog_in m pin mod 1024).

Definition delay (ms : Z) : M unit :=
  modify (fun m => set_millis (Int32.to_unsigned (millis m + ms)) m) ;;
  emit (EvDelay ms).

(** Every interrupt of the sketch is served by [rst_ISR]. *)
Definition attachInterrupt (pin : Z) (mode : IrqMode) : M unit :=
  emit (EvAttachInterrupt pin mode).

Definition Serial_begin (baud : Z) : M unit := emit (EvSerialBegin baud).
Definition Serial_write (b : Z) : M unit := emit (EvSerialWrite b).
Definition Serial_println_int (n : Z) : M unit := emit (EvSerialPrintlnInt n).
Definition Serial_println_str (s : string) : M unit :=
  emit (EvSerialPrintlnStr s).

Definition lcd_clear : M unit := emit EvLcdClear.
Definition lcd_begin (cols rows : Z) : M unit := emit (EvLcdBegin cols rows).
Definition lcd_setCursor (col row : Z) : M unit :=
  emit (EvLcdSetCursor col row).
Definition lcd_print_int (n : Z) : M unit := emit (EvLcdPrintInt n).
Definition lcd_print_str (s : string) : M unit := emit (EvLcdPrintStr s).

(** ** Chrono objects *)

Definition get_chrono (c : ChronoId) (m : Machine) : Chrono :=
  match c with
  | LedChrono => led_chrono m
  | PumpChrono => pump_chrono m
  end.

Definition set_chrono (c : ChronoId) (v : Chrono) (m : Machine) : Machine :=
  match c with
  | LedChrono => set_led_chrono v m
  | PumpChrono => set_pump_chrono v m
  end.

(** Modelled from the spec: elapsed time is [current_time -
    last_restart_time] in [unsigned long] arithmetic. *)
Definition chrono_elapsed (c : Chrono) (now : Z) : Z :=
  Int32.to_unsigned (now - startTime c).

(** Modelled from the spec: [hasPassed] holds when the elapsed time has
    reached the threshold (taken as [unsigned long]). *)
Definition hasPassed (c : ChronoId) (timeout : Z) : M bool :=
  gets (fun m =>
          Int32.to_unsigned timeout <=? chrono_elapsed (get_chrono c m) (millis m)).

(** Modelled from the spec: [restart] resets the time of the last restart to
    the current time. *)
Definition restart (c : ChronoId) : M unit :=
  modify (fun m => set_chrono c (mkChrono (millis m)) m) ;;
  emit (EvChronoRestart c).

(** ** The sketch *)

(** State of the machine when it comes out of reset: the initialised globals
    ([pump_state] and [led_state] are [true]), both chronos started, the
    clock at zero and every output latch low. *)
Definition power_on (din ain : Z -> Z) : Machine :=
  mkMachine 0 0 true true false 0 0 (mkChrono 0) (mkChrono 0)
    0 din ain (fun _ => LOW) [].

(** [rst_ISR] requests a system reset: all state is discarded, the inputs
    stay what they are. *)
Definition rst_ISR (m : Machine) : Machine :=
  set_trace (trace m ++ [EvSystemReset])
    (power_on (digital_in m) (analog_in m)).

Definition light : M bool :=
  v <- analogRead ldr ;;
  ret (v <? dark_thresh).

Definition setup (fuel : nat) : M unit :=
  pinMode int_led OUTPUT ;;
  pinMode signal_led OUTPUT ;;
  pinMode disp_present INPUT_PULLUP ;;
  pinMode empty_switch INPUT_PULLUP ;;
  pinMode reset_switch INPUT_PULLUP ;;
  pinMode prime_switch INPUT_PULLUP ;;
  pinMode pump OUTPUT ;;
  pinMode disp_D4 OUTPUT ;;
  pinMode disp_D5 OUTPUT ;;
  pinMode disp_D6 OUTPUT ;;
  pinMode disp_D7 OUTPUT ;;
  pinMode disp_RS OUTPUT ;;
  pinMode disp_EN OUTPUT ;;
  pinMode ldr INPUT ;;
  pinMode pump_res INPUT ;;
  (* flash on-board LED to confirm that we've reset *)
  for_ 3 0 (fun _ =>
    digitalWrite int_led HIGH ;;
    delay 250 ;;
    digitalWrite int_led LOW ;;
    delay 250) ;;
  (* pause until reset switch released *)
  while_ fuel (r <- digitalReadFast reset_switch ;; ret (r =? 0)) (ret tt) ;;
  attachInterrupt reset_switch FALLING ;;
  attachInterrupt prime_switch CHANGE ;;
  attachInterrupt empty_switch CHANGE ;;
  attachInterrupt disp_present CHANGE ;;
  (* start with pump and led off *)
  digitalWrite pump LOW ;;
  digitalWrite signal_led HIGH ;;
  (* read timer pot & set initial value for pump on time *)
  v <- analogRead pump_res ;;
  modify (set_pump_res_val v) ;;
  modify (fun m => set_pump_time (pump_time_of (pump_res_val m)) m) ;;
  modify (fun m => set_next_pump_event (pump_time m) m) ;;
  d <- digitalRead disp_present ;;
  modify (set_diag_mode (d =? LOW)) ;;
  Serial_begin 9600.

(** Diagnostic mode: show each parameter in turn for two seconds. *)
Definition loop_diagnostics : M unit :=
  for_ 4 1 (fun counter =>
    Serial_println_int counter ;;
    lcd_clear ;;
    lcd_begin 16 2 ;;
    (if counter =? 1 then
       e <- digitalRead empty_switch ;;
       if e =? HIGH then lcd_print_str "We have water"
       else lcd_print_str "Tank is empty"
     else if counter =? 2 then
       lcd_print_str "Light = " ;;
       lcd_setCursor 8 0 ;;
       v <- analogRead ldr ;;
       lcd_print_int (Int32.div (Int32.mul (Int32.sub 1023 v) 100) 1023) ;;
       lcd_print_str "%" ;;
       lcd_setCursor 0 1 ;;
       l <- light ;;
       if l then lcd_print_str "It's daytime"
       else lcd_print_str "It's night"
     else if counter =? 3 then
       v <- analogRead pump_res ;;
       modify (set_pump_res_val v) ;;
       modify (fun m => set_pump_time (pump_time_of (pump_res_val m)) m) ;;
       lcd_print_str "Pot 1 = " ;;
       lcd_setCursor 8 0 ;;
       r <- gets pump_res_val ;;
       lcd_print_int (Int32.div (Int32.mul r 100) 1023) ;;
       lcd_print_str "%" ;;
       lcd_setCursor 0 1 ;;
       lcd_print_str "Time = " ;;
       lcd_setCursor 7 1 ;;
       t <- gets pump_time ;;
       lcd_print_int (Int32.div t 60000) ;;
       lcd_print_str ":" ;;
       lcd_print_int (Int32.rem (Int32.div t 1000) 60)
     else if counter =? 4 then
       p <- digitalRead prime_switch ;;
       if p =? 0 then lcd_print_str "Prime is on"
       else lcd_print_str "Prime is off"
     else ret tt) ;;
    delay 2000).

(** One turn of the tank-empty alarm loop. *)
Definition alarm_flash : M unit :=
  digitalWrite signal_led LOW ;;
  delay 20 ;;
  digitalWrite signal_led HIGH ;;
  delay 500.

(** Tank empty: flash the light and do nothing else until the system is
    reset; the loop [while (true)] has no exit. *)
Definition loop_tank_empty (fuel : nat) : M unit :=
  while_ fuel (ret true) alarm_flash.

(** Duration of the current phase of the signal LED. *)
Definition led_event (pumping led_on : bool) : Z :=
  if pumping then
    if led_on then led_on_pumping else led_off_pumping
  else if led_on then led_on_idle
  else led_off_idle.

(** The main timer loop, done only when there is water. *)
Definition loop_watering : M unit :=
  Serial_write 13 ;;
  Serial_println_str "Reading pump res" ;;
  v <- analogRead pump_res ;;
  modify (set_pump_res_val v) ;;
  modify (fun m => set_pump_time (pump_time_of (pump_res_val m)) m) ;;
  t <- gets pump_time ;;
  Serial_println_int t ;;
  s <- gets pump_state ;;
  Serial_println_int (Z.b2z s) ;;
  (* now calculate next pump event *)
  s <- gets pump_state ;;
  (if s then modify (fun m => set_next_pump_event (pump_time m) m)
   else modify (set_next_pump_event cycle_time)) ;;
  e <- gets next_pump_event ;;
  passed <- hasPassed PumpChrono e ;;
  (if passed then
     restart PumpChrono ;;
     modify (fun m => set_pump_state (negb (pump_state m)) m) ;;
     (* now factor in the light state and the prime switch *)
     p <- digitalRead prime_switch ;;
     (if p =? 0 then modify (set_pump_state true)
      else
        s <- gets pump_state ;;
        if s then
          l <- light ;;
          modify (set_pump_state l)
        else modify (set_pump_state false))
   else ret tt) ;;
  (* update pump output with current state *)
  s <- gets pump_state ;;
  digitalWrite pump (Z.b2z s) ;;
  (* that's the pump sorted, now the signal led *)
  s <- gets pump_state ;;
  l <- gets led_state ;;
  modify (set_next_led_event (led_event s l)) ;;
  e <- gets next_led_event ;;
  passed <- hasPassed LedChrono e ;;
  (if passed then
     restart LedChrono ;;
     modify (fun m => set_led_state (negb (led_state m)) m) ;;
     l <- gets led_state ;;
     digitalWrite signal_led (Z.b2z (negb l))
   else ret tt).

Definition loop (fuel : nat) : M unit :=
  d <- gets diag_mode ;;
  if d then loop_diagnostics
  else
    e <- digitalRead empty_switch ;;
    if e =? LOW then loop_tank_empty fuel
    else loop_watering.

(** ** Observations on a machine state *)

(** What the input pins read at this instant. *)
Definition pot_reading (m : Machine) : Z := analog_in m pump_res mod 1024.
Definition tank_empty (m : Machine) : bool :=
  level_of (digital_in m empty_switch) =? LOW.
Definition prime_engaged (m : Machine) : bool :=
  level_of (digital_in m prime_switch) =? 0.
Definition is_light (m : Machine) : bool :=
  analog_in m ldr mod 1024 <? dark_thresh.

(** A pass of [loop] is operational when the sketch is not in diagnostic
    mode and the tank is not empty. *)
Definition operational (m : Machine) : bool :=
  negb (diag_mode m) && negb (tank_empty m).

(** Threshold of the cycle timer in this pass, and whether it is reached. *)
Definition pump_threshold (m : Machine) : Z :=
  if pump_state m then pump_time_of (pot_reading m) else cycle_time.
Definition pump_timer_elapsed (m : Machine) : bool :=
  Int32.to_unsigned (pump_threshold m)
    <=? chrono_elapsed (pump_chrono m) (millis m).

(** Whether the LED timer has reached the threshold [t]. *)
Definition led_timer_elapsed (t : Z) (m : Machine) : bool :=
  Int32.to_unsigned t <=? chrono_elapsed (led_chrono m) (millis m).

(** Events recorded between two states. *)
Definition pass_events (m m' : Machine) : list Event :=
  List.skipn (List.length (trace m)) (trace m').

(** Levels written to an output pin, in order. *)
Fixpoint writes_to (pin : Z) (evs : list Event) : list Z :=
  match evs with
  | [] => []
  | EvDigitalWrite p v :: evs' =>
      if p =? pin then v :: writes_to pin evs' else writes_to pin evs'
  | _ :: evs' => writes_to pin evs'
  end.

(** Restarts of a chrono. *)
Definition is_restart (c : ChronoId) (e : Event) : bool :=
  match e, c with
  | EvChronoRestart LedChrono, LedChrono => true
  | EvChronoRestart PumpChrono, PumpChrono => true
  | _, _ => false
  end.
Definition restarted (c : ChronoId) (evs : list Event) : bool :=
  existsb (is_restart c) evs.

(** The signal LED is wired active-low: [setup] switches it off by driving
    the pin high, and [loop] drives it to the inverse of [led_state]. *)
Definition led_lit (level : Z) : bool := level =? LOW.

(** Phases of the signal LED in a trace: for every delay, whether the LED is
    lit during it and for how long.  [level] is the level of the pin before
    the first event. *)
Fixpoint led_phases (level : Z) (evs : list Event) : list (bool * Z) :=
  match evs with
  | [] => []
  | EvDigitalWrite p v :: evs' =>
      led_phases (if p =? signal_led then v else level) evs'
  | EvDelay ms :: evs' => (led_lit level, ms) :: led_phases level evs'
  | _ :: evs' => led_phases level evs'
  end.

(** The events of one turn of the alarm loop. *)
Definition alarm_flash_events : list Event :=
  [EvDigitalWrite signal_led LOW; EvDelay 20;
   EvDigitalWrite signal_led HIGH; EvDelay 500].

(** State after [n] turns of the alarm loop. *)
Fixpoint alarm_turns (n : nat) (m : Machine) : Machine :=
  match n with
  | O => m
  | S n' =>
      match alarm_flash m with
      | Done _ m' => alarm_turns n' m'
      | Spinning m' => m'
      end
  end.

(** A run of passes of [loop]: before each pass the environment sets the
    clock and the input pins. *)
Record Env := mkEnv {
  env_millis : Z;
  env_digital : Z -> Z;
  env_analog : Z -> Z
}.

Definition with_env (e : Env) (m : Machine) : Machine :=
  mkMachine (pump_res_val m) (pump_time m) (pump_state m) (led_state m)
    (diag_mode m) (next_led_event m) (next_pump_event m) (led_chrono m)
    (pump_chrono m) (env_millis e) (env_digital e) (env_analog e)
    (pin_out m) (trace m).

Fixpoint run (fuel : nat) (es : list Env) (m : Machine) : Result unit :=
  match es with
  | [] => Done tt m
  | e :: es' =>
      match loop fuel (with_env e m) with
      | Done _ m' => run fuel es' m'
      | Spinning m' => Spinning m'
      end
  end.

(** ** Concrete machines used in examples *)

(** Input pins with water in the tank, no display, reset switch released,
    and the given prime switch level, light sensor and potentiometer
    readings. *)
Definition pins (prime : Z) : Z -> Z :=
  fun p => if p =? prime_switch then prime else HIGH.
Definition analogs (ldr_val pot_val : Z) : Z -> Z :=
  fun p => if p =? ldr then ldr_val else pot_val.

(** Idle at time [now]; both chronos were restarted at time 0. *)
Definition idle_at (now prime ldr_val pot_val : Z) : Machine :=
  set_millis now
    (set_pump_state false (power_on (pins prime) (analogs ldr_val pot_val))).

(** Pumping at time [now]; both chronos were restarted at time 0. *)
Definition pumping_at (now prime ldr_val pot_val : Z) : Machine :=
  set_millis now (power_on (pins prime) (analogs ldr_val pot_val)).

(** Tank empty, outside diagnostic mode. *)
Definition dry_machine : Machine :=
  power_on (fun p => if p =? empty_switch then LOW else HIGH) (fun _ => 0).

(** Environment of a pass in which the sketch finds water in the tank, and
    one in which it finds the prime switch engaged. *)
Definition env_has_water (e : Env) : bool :=
  negb (level_of (env_digital e empty_switch) =? LOW).
Definition env_prime_engaged (e : Env) : bool :=
  level_of (env_digital e prime_switch) =? 0.

(** ** Further observations on traces *)

(** Numbers and texts sent to the display, in order. *)
Fixpoint lcd_ints (evs : list Event) : list Z :=
  match evs with
  | [] => []
  | EvLcdPrintInt n :: evs' => n :: lcd_ints evs'
  | _ :: evs' => lcd_ints evs'
  end.

Fixpoint lcd_strs (evs : list Event) : list string :=
  match evs with
  | [] => []
  | EvLcdPrintStr s :: evs' => s :: lcd_strs evs'
  | _ :: evs' => lcd_strs evs'
  end.

(** Durations of the delays, in order. *)
Fixpoint delays (evs : list Event) : list Z :=
  match evs with
  | [] => []
  | EvDelay ms :: evs' => ms :: delays evs'
  | _ :: evs' => delays evs'
  end.

(** Pins on which an interrupt has been attached, with the edge watched. *)
Fixpoint attached (evs : list Event) : list (Z * IrqMode) :=
  match evs with
  | [] => []
  | EvAttachInterrupt p md :: evs' => (p, md) :: attached evs'
  | _ :: evs' => attached evs'
  end.

(** Environment of a pass in the dark, and one with the prime switch
    disengaged. *)
Definition env_dark (e : Env) : bool :=
  negb (env_analog e ldr mod 1024 <? dark_thresh).
Definition env_prime_released (e : Env) : bool :=
  negb (level_of (env_digital e prime_switch) =? 0).

(** Whether a display is plugged in, as [setup] samples it. *)
Definition display_present (m : Machine) : bool :=
  level_of (digital_in m disp_present) =? LOW.
Definition reset_pressed (m : Machine) : bool :=
  level_of (digital_in m reset_switch) =? 0.

(** ** The running sketch

    States in which the sketch begins a pass of [loop].  The first pass comes
    after power-on or a reset ([rst_ISR]) and [setup]; it finds any inputs.
    Every later pass finds any inputs too, except on the prime switch: that
    pin reads as in the pass before, because [setup] has attached [rst_ISR]
    to every change of it, and a reset ends the run of passes. *)




(** * Properties *)

(** ** Machine integers and the pump on-time *)

Lemma wrap_small (x : Z) : Int32.in_range x -> Int32.wrap x = x.
Proof.
  unfold Int32.in_range, Int32.wrap, Int32.half_modulus, Int32.modulus.
  intros Hx. rewrite Z.mod_small by lia. lia.
Qed.

Lemma pump_time_of_formula (r : Z) :
  0 <= r <= 1023 -> pump_time_of r = pump_time_formula r.
Proof.
  intros Hr. unfold pump_time_of, pump_time_formula.
  unfold Int32.add, Int32.div, Int32.mul, Int32.sub, max_time, min_time.
  change (600000 - 5000) with 595000.
  rewrite (wrap_small 595000)
    by (unfold Int32.in_range, Int32.half_modulus; lia).
  rewrite (wrap_small (595000 * r))
    by (unfold Int32.in_range, Int32.half_modulus; lia).
  rewrite Z.quot_div_nonneg by lia.
  assert (Hq : 0 <= 595000 * r / 1023 <= 595000).
  { split.
    - apply Z.div_pos; lia.
    - apply Z.div_le_upper_bound; lia. }
  rewrite (wrap_small (595000 * r / 1023))
    by (unfold Int32.in_range, Int32.half_modulus; lia).
  apply wrap_small.
  unfold Int32.in_range, Int32.half_modulus; lia.
Qed.

Lemma pot_reading_range (m : Machine) : 0 <= pot_reading m <= 1023.
Proof.
  unfold pot_reading.
  pose proof (Z.mod_pos_bound (analog_in m pump_res) 1024 ltac:(lia)). lia.
Qed.

(** C4: for every potentiometer reading in 0..1023 the derived pump time is
    5000 + (595000 * r) / 1023 with floor division; it is non-decreasing in
    the reading; it is 5000 at reading 0 and 600000 at reading 1023. *)
Theorem pump_time_linear_map (r s : Z) :
  0 <= r -> r <= s -> s <= 1023 ->
  pump_time_of r = 5000 + (595000 * r) / 1023 /\
  pump_time_of r <= pump_time_of s /\
  pump_time_of 0 = 5000 /\
  pump_time_of 1023 = 600000.
Proof.
  intros H0 Hrs Hs.
  split; [| split; [| split]].
  - apply pump_time_of_formula; lia.
  - rewrite !pump_time_of_formula by lia.
    unfold pump_time_formula.
    apply Z.add_le_mono_l, Z.div_le_mono; lia.
  - reflexivity.
  - reflexivity.
Qed.

Lemma pump_time_linear_map_witness :
  pump_time_of 100 = 5000 + (595000 * 100) / 1023 /\
  pump_time_of 100 <= pump_time_of 900 /\
  pump_time_of 0 = 5000 /\
  pump_time_of 1023 = 600000.
Proof. apply (pump_time_linear_map 100 900); lia. Defined.

(** C5 (as stated): the reading 512 does not give 302414 ms. *)
Lemma pump_time_512_is_not_302414 : pump_time_of 512 <> 302414.
Proof. vm_compute. discriminate. Qed.

(** C5 (amended): for the raw potentiometer reading 512 the derived pump
    time is exactly 302790 ms, which is 5000 + (595000 * 512) / 1023 with
    integer floor; for reading 0 it is exactly 5000 ms and for reading 1023
    exactly 600000 ms. *)
Theorem pump_time_samples :
  pump_time_of 512 = 302790 /\
  5000 + (595000 * 512) / 1023 = 302790 /\
  pump_time_of 0 = 5000 /\
  pump_time_of 1023 = 600000.
Proof. repeat split; reflexivity. Qed.

(** ** Symbolic execution of the sketch *)

Ltac red_machine :=
  cbv beta iota zeta delta
    [pump_res_val pump_time pump_state led_state diag_mode next_led_event
     next_pump_event led_chrono pump_chrono millis digital_in analog_in
     pin_out trace set_pump_res_val set_pump_time set_pump_state
     set_led_state set_diag_mode set_next_led_event set_next_pump_event
     set_led_chrono set_pump_chrono set_millis set_pin_out set_trace
     get_chrono set_chrono negb orb andb Z.b2z
     loop loop_watering alarm_flash bind gets modify ret emit analogRead
     hasPassed digitalRead digitalWrite restart light delay Serial_write
     Serial_println_int Serial_println_str];
  change (level_of 1) with 1 in *; change (level_of 0) with 0 in *;
  change (level_of LOW) with 0 in *; change (level_of HIGH) with 1 in *.

Lemma pass_events_app (m m' : Machine) (evs : list Event) :
  trace m' = trace m ++ evs -> pass_events m m' = evs.
Proof.
  intros H. unfold pass_events. rewrite H.
  rewrite List.skipn_app, List.skipn_all, Nat.sub_diag. reflexivity.
Qed.

Lemma writes_to_app (pin : Z) (xs ys : list Event) :
  writes_to pin (xs ++ ys) = writes_to pin xs ++ writes_to pin ys.
Proof.
  induction xs as [| e xs IH]; [reflexivity |].
  destruct e; cbn [writes_to app]; try exact IH.
  destruct (pin0 =? pin); cbn [app]; [f_equal |]; exact IH.
Qed.

(** Outside diagnostic mode and with water in the tank, [loop] runs the
    watering pass. *)
Lemma loop_operational (fuel : nat) (m : Machine) :
  operational m = true -> loop fuel m = loop_watering m.
Proof.
  unfold operational, tank_empty. intros H.
  apply andb_prop in H. destruct H as [Hd He].
  apply negb_true_iff in Hd, He.
  unfold loop, digitalRead, bind, gets. cbv beta iota.
  rewrite Hd. cbv beta iota. rewrite He. reflexivity.
Qed.

(** Outside diagnostic mode and with the tank empty, [loop] enters the alarm
    loop. *)
Lemma loop_dry (fuel : nat) (m : Machine) :
  diag_mode m = false -> tank_empty m = true ->
  loop fuel m = loop_tank_empty fuel m.
Proof.
  unfold tank_empty. intros Hd He.
  unfold loop, digitalRead, bind, gets. cbv beta iota.
  rewrite Hd. cbv beta iota. rewrite He. reflexivity.
Qed.

(** What one watering pass does, in terms of the state before it. *)
Lemma loop_watering_run (m : Machine) :
  exists m',
    loop_watering m = Done tt m' /\
    pump_state m' =
      (if pump_timer_elapsed m
       then prime_engaged m || (negb (pump_state m) && is_light m)
       else pump_state m) /\
    next_led_event m' = led_event (pump_state m') (led_state m) /\
    led_state m' =
      (if led_timer_elapsed (next_led_event m') m
       then negb (led_state m) else led_state m) /\
    trace m' =
      trace m ++
      [EvSerialWrite 13; EvSerialPrintlnStr "Reading pump res";
       EvSerialPrintlnInt (pump_time_of (pot_reading m));
       EvSerialPrintlnInt (Z.b2z (pump_state m))] ++
      (if pump_timer_elapsed m then [EvChronoRestart PumpChrono] else []) ++
      [EvDigitalWrite pump (Z.b2z (pump_state m'))] ++
      (if led_timer_elapsed (next_led_event m') m
       then [EvChronoRestart LedChrono;
             EvDigitalWrite signal_led (Z.b2z (negb (led_state m')))]
       else []) /\
    pump_chrono m' =
      (if pump_timer_elapsed m then mkChrono (millis m) else pump_chrono m) /\
    led_chrono m' =
      (if led_timer_elapsed (next_led_event m') m
       then mkChrono (millis m) else led_chrono m) /\
    pin_out m' pump = Z.b2z (pump_state m') /\
    pin_out m' signal_led =
      (if led_timer_elapsed (next_led_event m') m
       then Z.b2z (negb (led_state m')) else pin_out m signal_led) /\
    pump_time m' = pump_time_of (pot_reading m) /\
    diag_mode m' = diag_mode m.
Proof.
  destruct m as [rv pt ps ls dm nle npe lc pc now din ain pout tr].
  unfold pump_timer_elapsed, pump_threshold, pot_reading, prime_engaged,
    is_light, led_timer_elapsed.
  destruct ps; red_machine;
    destruct (_ <=? chrono_elapsed pc now) eqn:Hp; red_machine;
    destruct (level_of (din prime_switch) =? 0) eqn:Hprime; red_machine;
    destruct (ain ldr mod 1024 <? dark_thresh) eqn:Hlight; red_machine;
    destruct ls; red_machine;
    destruct (_ <=? chrono_elapsed lc now) eqn:Hl; red_machine.
  all: eexists; split; [reflexivity |]; red_machine; rewrite ?Hl; red_machine.
  all: rewrite <- ?app_assoc; repeat split; reflexivity.
Qed.

(** One turn of the alarm loop. *)
Lemma alarm_flash_run (m : Machine) :
  exists m',
    alarm_flash m = Done tt m' /\
    trace m' = trace m ++ alarm_flash_events /\
    pin_out m' pump = pin_out m pump /\
    pin_out m' signal_led = HIGH /\
    pump_state m' = pump_state m /\
    led_state m' = led_state m /\
    pump_chrono m' = pump_chrono m /\
    led_chrono m' = led_chrono m.
Proof.
  destruct m as [rv pt ps ls dm nle npe lc pc now din ain pout tr].
  red_machine. eexists. split; [reflexivity |]. red_machine.
  rewrite <- ?app_assoc. repeat split; reflexivity.
Qed.

(** The alarm loop never finishes: whatever the fuel, it is still spinning,
    in the state reached after that many turns. *)
Lemma loop_tank_empty_spins (fuel : nat) (m : Machine) :
  loop_tank_empty fuel m = Spinning (alarm_turns fuel m).
Proof.
  revert m. induction fuel as [| n IH]; intros m; [reflexivity |].
  unfold loop_tank_empty in *. cbn [while_ alarm_turns]. unfold ret at 1.
  destruct (alarm_flash_run m) as (m1 & Hrun & _).
  rewrite Hrun. apply IH.
Qed.

Lemma alarm_turns_run (n : nat) (m : Machine) :
  trace (alarm_turns n m) =
    trace m ++ List.concat (List.repeat alarm_flash_events n) /\
  pin_out (alarm_turns n m) pump = pin_out m pump /\
  pump_state (alarm_turns n m) = pump_state m /\
  led_state (alarm_turns n m) = led_state m /\
  pump_chrono (alarm_turns n m) = pump_chrono m /\
  led_chrono (alarm_turns n m) = led_chrono m.
Proof.
  revert m. induction n as [| n IH]; intros m.
  - cbn. rewrite List.app_nil_r. repeat split; reflexivity.
  - cbn [alarm_turns List.repeat List.concat].
    destruct (alarm_flash_run m)
      as (m1 & Hrun & Htr & Hpin & _ & Hps & Hls & Hpc & Hlc).
    rewrite Hrun.
    destruct (IH m1) as (Htr' & Hpin' & Hps' & Hls' & Hpc' & Hlc').
    rewrite Htr', Htr, Hpin', Hpin, Hps', Hps, Hls', Hls, Hpc', Hpc, Hlc', Hlc.
    rewrite <- List.app_assoc. repeat split; reflexivity.
Qed.

Lemma writes_to_pump_alarm (n : nat) :
  writes_to pump (List.concat (List.repeat alarm_flash_events n)) = [].
Proof.
  induction n as [| n IH]; [reflexivity |].
  cbn [List.repeat List.concat]. rewrite writes_to_app, IH. reflexivity.
Qed.

Lemma led_phases_alarm (level : Z) (n : nat) :
  led_phases level (List.concat (List.repeat alarm_flash_events n)) =
  List.concat (List.repeat [(true, 20); (false, 500)] n).
Proof.
  revert level. induction n as [| n IH]; intros level; [reflexivity |].
  cbn [List.repeat List.concat].
  change (led_phases level (alarm_flash_events ++
            List.concat (List.repeat alarm_flash_events n)))
    with ((true, 20) :: (false, 500) ::
            led_phases HIGH (List.concat (List.repeat alarm_flash_events n))).
  rewrite IH. reflexivity.
Qed.

(** ** The watering cycle *)

(** C1: in an operational pass where the cycle timer has reached its
    threshold and the prime switch is disengaged, an idle pump state becomes
    the light reading (false in the dark, true in the light), and a pumping
    state becomes idle whatever the light. *)
Theorem timer_edge_without_prime (fuel : nat) (m : Machine) :
  operational m = true ->
  pump_timer_elapsed m = true ->
  prime_engaged m = false ->
  exists m',
    loop fuel m = Done tt m' /\
    (pump_state m = false -> pump_state m' = is_light m) /\
    (pump_state m = true -> pump_state m' = false).
Proof.
  intros Hop Hel Hprime. rewrite (loop_operational fuel m Hop).
  destruct (loop_watering_run m) as (m' & Hrun & Hps & _).
  exists m'. split; [exact Hrun |].
  rewrite Hel, Hprime in Hps.
  split; intros Hbefore; rewrite Hps, Hbefore; reflexivity.
Qed.

Lemma timer_edge_without_prime_witness :
  exists m',
    loop 0 (idle_at 3600000 HIGH 600 0) = Done tt m' /\
    (pump_state (idle_at 3600000 HIGH 600 0) = false ->
     pump_state m' = is_light (idle_at 3600000 HIGH 600 0)) /\
    (pump_state (idle_at 3600000 HIGH 600 0) = true ->
     pump_state m' = false).
Proof.
  apply (timer_edge_without_prime 0 (idle_at 3600000 HIGH 600 0));
    reflexivity.
Defined.

(** C2: in an operational pass where the cycle timer has reached its
    threshold and the prime switch is engaged, the pump state after the pass
    is true, whatever it was before and whatever the light reading. *)
Theorem timer_edge_with_prime (fuel : nat) (m : Machine) :
  operational m = true ->
  pump_timer_elapsed m = true ->
  prime_engaged m = true ->
  exists m',
    loop fuel m = Done tt m' /\
    pump_state m' = true /\
    writes_to pump (pass_events m m') = [HIGH].
Proof.
  intros Hop Hel Hprime. rewrite (loop_operational fuel m Hop).
  destruct (loop_watering_run m) as (m' & Hrun & Hps & _ & _ & Htr & _).
  rewrite Hel, Hprime in Hps. cbn [orb] in Hps.
  exists m'. split; [exact Hrun |]. split; [exact Hps |].
  rewrite (pass_events_app _ _ _ Htr), Hps.
  destruct (pump_timer_elapsed m), (led_timer_elapsed (next_led_event m') m);
    reflexivity.
Qed.

Lemma timer_edge_with_prime_witness :
  exists m',
    loop 0 (idle_at 3600000 LOW 600 0) = Done tt m' /\
    pump_state m' = true /\
    writes_to pump (pass_events (idle_at 3600000 LOW 600 0) m') = [HIGH].
Proof.
  apply (timer_edge_with_prime 0 (idle_at 3600000 LOW 600 0)); reflexivity.
Defined.


(** C9: in an operational pass where the cycle timer has not reached its
    threshold, the pump state is unchanged, whatever the light reading and
    the prime switch, and the pump output written is that unchanged state. *)
Theorem no_timer_edge_keeps_pump_state (fuel : nat) (m : Machine) :
  operational m = true ->
  pump_timer_elapsed m = false ->
  exists m',
    loop fuel m = Done tt m' /\
    pump_state m' = pump_state m /\
    writes_to pump (pass_events m m') = [Z.b2z (pump_state m)] /\
    pin_out m' pump = Z.b2z (pump_state m) /\
    pump_chrono m' = pump_chrono m.
Proof.
  intros Hop Hel. rewrite (loop_operational fuel m Hop).
  destruct (loop_watering_run m)
    as (m' & Hrun & Hps & _ & _ & Htr & Hpc & _ & Hpin & _).
  rewrite Hel in Hps, Htr, Hpc.
  exists m'. split; [exact Hrun |]. split; [exact Hps |].
  rewrite (pass_events_app _ _ _ Htr), Hpin, Hps.
  split; [| split; [reflexivity | exact Hpc]].
  destruct (led_timer_elapsed (next_led_event m') m); reflexivity.
Qed.

(** Darkness sets in while the pump runs: the run goes on. *)
Lemma no_timer_edge_keeps_pump_state_witness :
  exists m',
    loop 0 (pumping_at 1000 HIGH 1023 0) = Done tt m' /\
    pump_state m' = pump_state (pumping_at 1000 HIGH 1023 0) /\
    writes_to pump (pass_events (pumping_at 1000 HIGH 1023 0) m') =
      [Z.b2z (pump_state (pumping_at 1000 HIGH 1023 0))] /\
    pin_out m' pump = Z.b2z (pump_state (pumping_at 1000 HIGH 1023 0)) /\
    pump_chrono m' = pump_chrono (pumping_at 1000 HIGH 1023 0).
Proof.
  apply (no_timer_edge_keeps_pump_state 0 (pumping_at 1000 HIGH 1023 0));
    reflexivity.
Defined.

(** C7 (as stated): at the end of an idle hour in the dark with the prime
    switch disengaged, the cycle timer is restarted although the pump state
    is the same after the pass as before it. *)
Lemma restart_without_toggle :
  operational (idle_at 3600000 HIGH 600 0) = true /\
  exists m',
    loop 0 (idle_at 3600000 HIGH 600 0) = Done tt m' /\
    restarted PumpChrono (pass_events (idle_at 3600000 HIGH 600 0) m') = true /\
    pump_state m' = pump_state (idle_at 3600000 HIGH 600 0).
Proof.
  split; [reflexivity |].
  eexists. split; [vm_compute; reflexivity |].
  split; reflexivity.
Qed.

(** C7 (amended): in every operational pass the cycle timer is restarted
    exactly when it has reached its threshold; a pass that changes the pump
    state restarts the timer, and a pass that restarts the timer leaves the
    pump state at: prime switch engaged, or flipped value and light. *)
Theorem cycle_timer_restart (fuel : nat) (m : Machine) :
  operational m = true ->
  exists m',
    loop fuel m = Done tt m' /\
    restarted PumpChrono (pass_events m m') = pump_timer_elapsed m /\
    (pump_state m' <> pump_state m ->
     restarted PumpChrono (pass_events m m') = true) /\
    (restarted PumpChrono (pass_events m m') = true ->
     pump_state m' = prime_engaged m || (negb (pump_state m) && is_light m)) /\
    pump_chrono m' =
      (if restarted PumpChrono (pass_events m m')
       then mkChrono (millis m) else pump_chrono m).
Proof.
  intros Hop. rewrite (loop_operational fuel m Hop).
  destruct (loop_watering_run m)
    as (m' & Hrun & Hps & _ & _ & Htr & Hpc & _).
  exists m'. split; [exact Hrun |].
  assert (Hre : restarted PumpChrono (pass_events m m') = pump_timer_elapsed m).
  { rewrite (pass_events_app _ _ _ Htr).
    destruct (pump_timer_elapsed m),
      (led_timer_elapsed (next_led_event m') m); reflexivity. }
  rewrite Hre. split; [reflexivity |].
  destruct (pump_timer_elapsed m).
  - split; [reflexivity |]. split; [intros _; exact Hps | exact Hpc].
  - split; [intros Hne; contradiction |].
    split; [discriminate | exact Hpc].
Qed.

Lemma cycle_timer_restart_witness :
  exists m',
    loop 0 (pumping_at 5000 HIGH 0 0) = Done tt m' /\
    restarted PumpChrono (pass_events (pumping_at 5000 HIGH 0 0) m') =
      pump_timer_elapsed (pumping_at 5000 HIGH 0 0) /\
    (pump_state m' <> pump_state (pumping_at 5000 HIGH 0 0) ->
     restarted PumpChrono (pass_events (pumping_at 5000 HIGH 0 0) m') = true) /\
    (restarted PumpChrono (pass_events (pumping_at 5000 HIGH 0 0) m') = true ->
     pump_state m' =
       prime_engaged (pumping_at 5000 HIGH 0 0)
       || (negb (pump_state (pumping_at 5000 HIGH 0 0))
           && is_light (pumping_at 5000 HIGH 0 0))) /\
    pump_chrono m' =
      (if restarted PumpChrono (pass_events (pumping_at 5000 HIGH 0 0) m')
       then mkChrono (millis (pumping_at 5000 HIGH 0 0))
       else pump_chrono (pumping_at 5000 HIGH 0 0)).
Proof.
  apply (cycle_timer_restart 0 (pumping_at 5000 HIGH 0 0)); reflexivity.
Defined.

(** ** The signal LED *)

(** C8: the LED threshold selected in an operational pass is a function of
    the pump state and the LED state alone, with the values 500, 1500, 10
    and 2000; when the LED timer has reached it, the timer is restarted, the
    LED state flips and the LED pin is driven to the inverse of the new LED
    state. *)
Theorem led_annunciator (fuel : nat) (m : Machine) :
  operational m = true ->
  exists m',
    loop fuel m = Done tt m' /\
    next_led_event m' = led_event (pump_state m') (led_state m) /\
    led_event true true = 500 /\
    led_event true false = 1500 /\
    led_event false true = 10 /\
    led_event false false = 2000 /\
    (led_timer_elapsed (next_led_event m') m = true ->
     restarted LedChrono (pass_events m m') = true /\
     led_chrono m' = mkChrono (millis m) /\
     led_state m' = negb (led_state m) /\
     writes_to signal_led (pass_events m m') = [Z.b2z (negb (led_state m'))] /\
     pin_out m' signal_led = Z.b2z (negb (led_state m'))) /\
    (led_timer_elapsed (next_led_event m') m = false ->
     restarted LedChrono (pass_events m m') = false /\
     led_chrono m' = led_chrono m /\
     led_state m' = led_state m /\
     writes_to signal_led (pass_events m m') = [] /\
     pin_out m' signal_led = pin_out m signal_led).
Proof.
  intros Hop. rewrite (loop_operational fuel m Hop).
  destruct (loop_watering_run m)
    as (m' & Hrun & _ & Hnle & Hls & Htr & _ & Hlc & _ & Hpin & _).
  exists m'. split; [exact Hrun |]. split; [exact Hnle |].
  do 4 (split; [reflexivity |]).
  rewrite (pass_events_app _ _ _ Htr).
  split; intros Hel; rewrite Hel in *.
  - repeat split; try assumption.
    + destruct (pump_timer_elapsed m); reflexivity.
    + destruct (pump_timer_elapsed m); reflexivity.
  - repeat split; try assumption.
    + destruct (pump_timer_elapsed m); reflexivity.
    + destruct (pump_timer_elapsed m); reflexivity.
Qed.

Lemma led_annunciator_witness :
  exists m',
    loop 0 (pumping_at 500 HIGH 0 1023) = Done tt m' /\
    next_led_event m' =
      led_event (pump_state m') (led_state (pumping_at 500 HIGH 0 1023)) /\
    led_event true true = 500 /\
    led_event true false = 1500 /\
    led_event false true = 10 /\
    led_event false false = 2000 /\
    (led_timer_elapsed (next_led_event m') (pumping_at 500 HIGH 0 1023) = true ->
     restarted LedChrono (pass_events (pumping_at 500 HIGH 0 1023) m') = true /\
     led_chrono m' = mkChrono (millis (pumping_at 500 HIGH 0 1023)) /\
     led_state m' = negb (led_state (pumping_at 500 HIGH 0 1023)) /\
     writes_to signal_led (pass_events (pumping_at 500 HIGH 0 1023) m') =
       [Z.b2z (negb (led_state m'))] /\
     pin_out m' signal_led = Z.b2z (negb (led_state m'))) /\
    (led_timer_elapsed (next_led_event m') (pumping_at 500 HIGH 0 1023) = false ->
     restarted LedChrono (pass_events (pumping_at 500 HIGH 0 1023) m') = false /\
     led_chrono m' = led_chrono (pumping_at 500 HIGH 0 1023) /\
     led_state m' = led_state (pumping_at 500 HIGH 0 1023) /\
     writes_to signal_led (pass_events (pumping_at 500 HIGH 0 1023) m') = [] /\
     pin_out m' signal_led = pin_out (pumping_at 500 HIGH 0 1023) signal_led).
Proof.
  apply (led_annunciator 0 (pumping_at 500 HIGH 0 1023)); reflexivity.
Defined.

(** ** The tank-empty alarm *)

(** C6 (as stated): in one turn of the alarm loop the LED is lit during the
    20 ms and dark during the 500 ms, not the other way round. *)
Lemma alarm_turn_is_not_off_then_on :
  exists m',
    loop 1 dry_machine = Spinning m' /\
    led_phases (pin_out dry_machine signal_led) (pass_events dry_machine m')
      = [(true, 20); (false, 500)] /\
    led_phases (pin_out dry_machine signal_led) (pass_events dry_machine m')
      <> [(false, 20); (true, 500)].
Proof.
  eexists. split; [vm_compute; reflexivity |].
  split; [reflexivity | vm_compute; discriminate].
Qed.

(** C6 (amended): outside diagnostic mode and with the tank empty, [loop]
    never returns; each turn of its inner loop drives the LED pin low (LED
    on, the LED being active-low) for 20 ms and then high (LED off) for
    500 ms, and nothing else is done. *)
Theorem tank_empty_alarm_flashes (fuel : nat) (m : Machine) :
  diag_mode m = false ->
  tank_empty m = true ->
  exists m',
    loop fuel m = Spinning m' /\
    pass_events m m' = List.concat (List.repeat alarm_flash_events fuel) /\
    alarm_flash_events =
      [EvDigitalWrite signal_led LOW; EvDelay 20;
       EvDigitalWrite signal_led HIGH; EvDelay 500] /\
    led_lit LOW = true /\
    led_lit HIGH = false /\
    led_phases (pin_out m signal_led) (pass_events m m') =
      List.concat (List.repeat [(true, 20); (false, 500)] fuel).
Proof.
  intros Hd He. rewrite (loop_dry fuel m Hd He), loop_tank_empty_spins.
  exists (alarm_turns fuel m). split; [reflexivity |].
  destruct (alarm_turns_run fuel m) as (Htr & _).
  rewrite (pass_events_app _ _ _ Htr).
  repeat split. apply led_phases_alarm.
Qed.

Lemma tank_empty_alarm_flashes_witness :
  exists m',
    loop 3 dry_machine = Spinning m' /\
    pass_events dry_machine m' =
      List.concat (List.repeat alarm_flash_events 3) /\
    alarm_flash_events =
      [EvDigitalWrite signal_led LOW; EvDelay 20;
       EvDigitalWrite signal_led HIGH; EvDelay 500] /\
    led_lit LOW = true /\
    led_lit HIGH = false /\
    led_phases (pin_out dry_machine signal_led) (pass_events dry_machine m') =
      List.concat (List.repeat [(true, 20); (false, 500)] 3).
Proof. apply (tank_empty_alarm_flashes 3 dry_machine); reflexivity. Defined.

(** C10: the alarm loop never writes the pump output: on entry and after any
    number of turns the pump pin holds the value last driven to it, and the
    pump state, the LED state and both timers are as they were. *)
Theorem tank_empty_alarm_frame (fuel : nat) (m : Machine) :
  diag_mode m = false ->
  tank_empty m = true ->
  exists m',
    loop fuel m = Spinning m' /\
    writes_to pump (pass_events m m') = [] /\
    pin_out m' pump = pin_out m pump /\
    pump_state m' = pump_state m /\
    led_state m' = led_state m /\
    pump_chrono m' = pump_chrono m /\
    led_chrono m' = led_chrono m.
Proof.
  intros Hd He. rewrite (loop_dry fuel m Hd He), loop_tank_empty_spins.
  exists (alarm_turns fuel m). split; [reflexivity |].
  destruct (alarm_turns_run fuel m) as (Htr & Hpin & Hps & Hls & Hpc & Hlc).
  rewrite (pass_events_app _ _ _ Htr), writes_to_pump_alarm.
  repeat split; assumption.
Qed.

Lemma tank_empty_alarm_frame_witness :
  exists m',
    loop 5 dry_machine = Spinning m' /\
    writes_to pump (pass_events dry_machine m') = [] /\
    pin_out m' pump = pin_out dry_machine pump /\
    pump_state m' = pump_state dry_machine /\
    led_state m' = led_state dry_machine /\
    pump_chrono m' = pump_chrono dry_machine /\
    led_chrono m' = led_chrono dry_machine.
Proof. apply (tank_empty_alarm_frame 5 dry_machine); reflexivity. Defined.

(** ** From reset onwards *)

Ltac red_setup :=
  cbv beta iota zeta delta
    [setup for_ while_ pinMode attachInterrupt Serial_begin digitalReadFast
     power_on];
  red_machine.

(** With the reset switch released, [setup] returns: the pump and the LED
    are off, the pump state is still [true] and the pump time is derived
    from the potentiometer. *)
Lemma setup_run (fuel : nat) (din ain : Z -> Z) :
  (level_of (din reset_switch) =? 0) = false ->
  exists m',
    setup (S fuel) (power_on din ain) = Done tt m' /\
    pump_state m' = true /\
    led_state m' = true /\
    pin_out m' pump = LOW /\
    pin_out m' signal_led = HIGH /\
    pump_time m' = pump_time_of (ain pump_res mod 1024) /\
    next_pump_event m' = pump_time m' /\
    diag_mode m' = (level_of (din disp_present) =? LOW) /\
    millis m' = 1500.
Proof.
  intros Hreset. red_setup. rewrite Hreset. red_setup.
  eexists. split; [reflexivity |]. red_machine.
  repeat split; reflexivity.
Qed.

(** While the reset switch is held, [setup] does not get past its wait. *)
Lemma setup_waits (fuel : nat) (din ain : Z -> Z) :
  (level_of (din reset_switch) =? 0) = true ->
  exists m', setup fuel (power_on din ain) = Spinning m'.
Proof.
  intros Hreset.
  cbv beta iota zeta delta
    [setup for_ pinMode attachInterrupt Serial_begin digitalReadFast power_on].
  red_machine.
  match goal with
  | |- exists m', match while_ fuel ?c ?b ?m0 with _ => _ end = _ =>
      assert (Hspin : forall n, while_ n c b m0 = Spinning m0)
  end.
  { intros n. induction n as [| n IH]; [reflexivity |].
    cbn [while_]. red_machine. rewrite Hreset. exact IH. }
  rewrite Hspin. eexists. reflexivity.
Qed.

(** X3: between two resets with the prime switch engaged throughout: starting
    from a pumping state, as [setup] leaves it, every pass with water in the
    tank writes the pump output high. *)
Theorem prime_engaged_run (fuel : nat) (es : list Env) (m : Machine) :
  diag_mode m = false ->
  pump_state m = true ->
  Forall (fun e => env_has_water e = true /\ env_prime_engaged e = true) es ->
  exists m' evs,
    run fuel es m = Done tt m' /\
    pump_state m' = true /\
    trace m' = trace m ++ evs /\
    writes_to pump evs = List.repeat HIGH (List.length es).
Proof.
  intros Hd Hps Hall. revert m Hd Hps.
  induction Hall as [| e es [Hwater Hprime] _ IH]; intros m Hd Hps.
  - exists m, []. cbn. rewrite List.app_nil_r. repeat split; assumption.
  - cbn [run].
    assert (Hop : operational (with_env e m) = true).
    { unfold operational, tank_empty. cbn. rewrite Hd.
      exact Hwater. }
    rewrite (loop_operational fuel _ Hop).
    destruct (loop_watering_run (with_env e m))
      as (m1 & Hrun & Hps1 & _ & _ & Htr & _ & _ & _ & _ & _ & Hdm).
    rewrite Hrun.
    assert (Hon : pump_state m1 = true).
    { rewrite Hps1. change (prime_engaged (with_env e m))
        with (env_prime_engaged e). rewrite Hprime.
      destruct (pump_timer_elapsed (with_env e m)); [reflexivity | exact Hps]. }
    destruct (IH m1) as (m' & evs & Hrun' & Hps' & Htr' & Hw);
      [rewrite Hdm; exact Hd | exact Hon |].
    eexists m', _. split; [exact Hrun' |]. split; [exact Hps' |].
    rewrite Htr', Htr, Hon. cbn [trace with_env].
    rewrite <- List.app_assoc. split; [reflexivity |].
    rewrite writes_to_app, Hw.
    destruct (pump_timer_elapsed (with_env e m)),
      (led_timer_elapsed (next_led_event m1) (with_env e m)); reflexivity.
Qed.

(** A reset brings the sketch back to its initial state, pump state
    [true]. *)
Lemma rst_ISR_resets (m : Machine) :
  pump_state (rst_ISR m) = true /\
  led_state (rst_ISR m) = true /\
  millis (rst_ISR m) = 0 /\
  pin_out (rst_ISR m) pump = LOW /\
  digital_in (rst_ISR m) = digital_in m /\
  analog_in (rst_ISR m) = analog_in m.
Proof. repeat split; reflexivity. Qed.

(** [light] reads the light sensor and changes nothing. *)
Lemma light_reading (m : Machine) : light m = Done (is_light m) m.
Proof. reflexivity. Qed.

(** Every operational pass derives the pump time anew from the
    potentiometer, within 5 seconds and 10 minutes. *)
Lemma loop_pump_time (fuel : nat) (m : Machine) :
  operational m = true ->
  exists m',
    loop fuel m = Done tt m' /\
    pump_time m' = 5000 + (595000 * pot_reading m) / 1023 /\
    5000 <= pump_time m' <= 600000.
Proof.
  intros Hop. rewrite (loop_operational fuel m Hop).
  destruct (loop_watering_run m)
    as (m' & Hrun & _ & _ & _ & _ & _ & _ & _ & _ & Hpt & _).
  exists m'. split; [exact Hrun |].
  pose proof (pot_reading_range m) as Hr.
  rewrite Hpt, pump_time_of_formula by exact Hr.
  unfold pump_time_formula. split; [reflexivity |].
  assert (0 <= 595000 * pot_reading m / 1023 <= 595000); [| lia].
  split; [apply Z.div_pos; lia | apply Z.div_le_upper_bound; lia].
Qed.

(** ** Examples *)

(** End of the idle hour in daylight: the pump starts. *)
Example idle_hour_over_in_daylight :
  exists m',
    loop 0 (idle_at 3600000 HIGH 100 0) = Done tt m' /\
    pump_state m' = true /\
    pin_out m' pump = HIGH.
Proof. eexists. split; [vm_compute; reflexivity |]. split; reflexivity. Qed.

(** End of the idle hour in the dark: the pump stays off. *)
Example idle_hour_over_in_the_dark :
  exists m',
    loop 0 (idle_at 3600000 HIGH 600 0) = Done tt m' /\
    pump_state m' = false /\
    pin_out m' pump = LOW.
Proof. eexists. split; [vm_compute; reflexivity |]. split; reflexivity. Qed.

(** End of a pump run of 5 seconds: the pump stops, light or not. *)
Example pump_run_over :
  exists m',
    loop 0 (pumping_at 5000 HIGH 100 0) = Done tt m' /\
    pump_state m' = false /\
    pin_out m' pump = LOW.
Proof. eexists. split; [vm_compute; reflexivity |]. split; reflexivity. Qed.

(** One second before the hour is over nothing happens yet. *)
Example idle_hour_not_over :
  exists m',
    loop 0 (idle_at 3599999 HIGH 100 0) = Done tt m' /\
    pump_state m' = false /\
    restarted PumpChrono (pass_events (idle_at 3599999 HIGH 100 0) m') = false.
Proof. eexists. split; [vm_compute; reflexivity |]. split; reflexivity. Qed.

(** The diagnostic cycle shows four screens of two seconds each. *)
Example diagnostics_take_eight_seconds :
  exists m',
    loop 0 (set_diag_mode true (pumping_at 0 HIGH 100 1023)) = Done tt m' /\
    millis m' = 8000 /\
    writes_to pump
      (pass_events (set_diag_mode true (pumping_at 0 HIGH 100 1023)) m') = [] /\
    pump_time m' = 600000.
Proof. eexists. split; [vm_compute; reflexivity |]. repeat split; reflexivity. Qed.

(** * Further properties *)

(** ** More symbolic execution *)

Ltac red_diag :=
  cbv beta iota zeta delta
    [lcd_clear lcd_begin lcd_setCursor lcd_print_int lcd_print_str];
  red_machine.

Ltac red_levels :=
  change (LOW =? HIGH) with false in *; change (HIGH =? HIGH) with true in *;
  change (LOW =? LOW) with true in *; change (HIGH =? LOW) with false in *;
  change (LOW =? 0) with true in *; change (HIGH =? 0) with false in *.

Lemma to_unsigned_small (x : Z) :
  0 <= x < Int32.modulus -> Int32.to_unsigned x = x.
Proof. intros Hx. unfold Int32.to_unsigned. apply Z.mod_small. exact Hx. Qed.

Lemma to_unsigned_add (x y z : Z) :
  Int32.to_unsigned (Int32.to_unsigned (x + y) + z) =
  Int32.to_unsigned (x + (y + z)).
Proof.
  unfold Int32.to_unsigned.
  rewrite Zplus_mod_idemp_l. f_equal. lia.
Qed.

(** In diagnostic mode [loop] runs the display cycle, whatever the tank. *)
Lemma loop_diag (fuel : nat) (m : Machine) :
  diag_mode m = true -> loop fuel m = loop_diagnostics m.
Proof.
  intros Hd. unfold loop, bind, gets. cbv beta iota. rewrite Hd. reflexivity.
Qed.

(** What one display cycle does. *)
Lemma loop_diagnostics_run (m : Machine) :
  exists m',
    loop_diagnostics m = Done tt m' /\
    trace m' =
      trace m ++
      [EvSerialPrintlnInt 1; EvLcdClear; EvLcdBegin 16 2;
       EvLcdPrintStr (if tank_empty m then "Tank is empty"
                      else "We have water");
       EvDelay 2000;
       EvSerialPrintlnInt 2; EvLcdClear; EvLcdBegin 16 2;
       EvLcdPrintStr "Light = "; EvLcdSetCursor 8 0;
       EvLcdPrintInt
         (Int32.div
            (Int32.mul (Int32.sub 1023 (analog_in m ldr mod 1024)) 100) 1023);
       EvLcdPrintStr "%"; EvLcdSetCursor 0 1;
       EvLcdPrintStr (if is_light m then "It's daytime" else "It's night");
       EvDelay 2000;
       EvSerialPrintlnInt 3; EvLcdClear; EvLcdBegin 16 2;
       EvLcdPrintStr "Pot 1 = "; EvLcdSetCursor 8 0;
       EvLcdPrintInt (Int32.div (Int32.mul (pot_reading m) 100) 1023);
       EvLcdPrintStr "%"; EvLcdSetCursor 0 1;
       EvLcdPrintStr "Time = "; EvLcdSetCursor 7 1;
       EvLcdPrintInt (Int32.div (pump_time_of (pot_reading m)) 60000);
       EvLcdPrintStr ":";
       EvLcdPrintInt
         (Int32.rem (Int32.div (pump_time_of (pot_reading m)) 1000) 60);
       EvDelay 2000;
       EvSerialPrintlnInt 4; EvLcdClear; EvLcdBegin 16 2;
       EvLcdPrintStr (if prime_engaged m then "Prime is on"
                      else "Prime is off");
       EvDelay 2000] /\
    pin_out m' = pin_out m /\
    pump_state m' = pump_state m /\
    led_state m' = led_state m /\
    pump_chrono m' = pump_chrono m /\
    led_chrono m' = led_chrono m /\
    next_pump_event m' = next_pump_event m /\
    next_led_event m' = next_led_event m /\
    diag_mode m' = diag_mode m /\
    pump_res_val m' = pot_reading m /\
    pump_time m' = pump_time_of (pot_reading m).
Proof.
  destruct m as [rv pt ps ls dm nle npe lc pc now din ain pout tr].
  unfold tank_empty, prime_engaged, is_light, pot_reading.
  cbn. red_diag. unfold level_of.
  destruct (din empty_switch =? 0); red_diag; red_levels; red_diag;
    destruct (ain ldr mod 1024 <? dark_thresh); red_diag;
    destruct (din prime_switch =? 0); red_diag; red_levels; red_diag.
  all: eexists; split; [reflexivity |]; red_machine.
  all: rewrite <- ?app_assoc; repeat split; reflexivity.
Qed.

(** What a watering pass stores and what it leaves alone. *)
Lemma loop_watering_frame (m : Machine) :
  exists m',
    loop_watering m = Done tt m' /\
    next_pump_event m' = pump_threshold m /\
    pump_res_val m' = pot_reading m /\
    millis m' = millis m /\
    digital_in m' = digital_in m /\
    analog_in m' = analog_in m /\
    pin_out m' int_led = pin_out m int_led.
Proof.
  destruct m as [rv pt ps ls dm nle npe lc pc now din ain pout tr].
  unfold pump_threshold, pot_reading.
  destruct ps; red_machine;
    destruct (_ <=? chrono_elapsed pc now); red_machine;
    destruct (level_of (din prime_switch) =? 0); red_machine;
    destruct (ain ldr mod 1024 <? dark_thresh); red_machine;
    destruct ls; red_machine;
    destruct (_ <=? chrono_elapsed lc now); red_machine.
  all: eexists; split; [reflexivity |]; red_machine.
  all: repeat split; reflexivity.
Qed.

(** The threshold of the cycle timer lies between 5 seconds and one hour. *)
Lemma pump_threshold_range (m : Machine) :
  5000 <= Int32.to_unsigned (pump_threshold m) <= 3600000.
Proof.
  assert (Hr := pot_reading_range m).
  assert (Ht : 5000 <= pump_threshold m <= 3600000).
  { unfold pump_threshold. destruct (pump_state m).
    - rewrite pump_time_of_formula by exact Hr. unfold pump_time_formula.
      assert (0 <= 595000 * pot_reading m / 1023 <= 595000); [| lia].
      split; [apply Z.div_pos; lia | apply Z.div_le_upper_bound; lia].
    - unfold cycle_time. lia. }
  rewrite to_unsigned_small; [exact Ht |].
  unfold Int32.modulus. lia.
Qed.

(** ** Start-up *)

Ltac red_start :=
  cbv beta iota zeta delta
    [setup for_ pinMode attachInterrupt Serial_begin digitalReadFast];
  red_machine.

(** X1: when the reset switch is released, [setup] returns after flashing
    the on-board LED three times (1.5 s).  It attaches the four interrupts,
    leaves the pump off and the signal LED off, derives the pump time from
    the potentiometer, and takes diagnostic mode from the display sense pin.
    It does not touch the pump state, the LED state or the chronos. *)
Theorem setup_completes (fuel : nat) (m : Machine) :
  reset_pressed m = false ->
  exists m',
    setup (S fuel) m = Done tt m' /\
    attached (pass_events m m') =
      [(reset_switch, FALLING); (prime_switch, CHANGE);
       (empty_switch, CHANGE); (disp_present, CHANGE)] /\
    writes_to int_led (pass_events m m') = [HIGH; LOW; HIGH; LOW; HIGH; LOW] /\
    delays (pass_events m m') = [250; 250; 250; 250; 250; 250] /\
    millis m' = Int32.to_unsigned (millis m + 1500) /\
    writes_to pump (pass_events m m') = [LOW] /\
    pin_out m' pump = LOW /\
    writes_to signal_led (pass_events m m') = [HIGH] /\
    pin_out m' signal_led = HIGH /\
    pump_res_val m' = pot_reading m /\
    pump_time m' = pump_time_of (pot_reading m) /\
    next_pump_event m' = pump_time m' /\
    diag_mode m' = display_present m /\
    pump_state m' = pump_state m /\
    led_state m' = led_state m /\
    pump_chrono m' = pump_chrono m /\
    led_chrono m' = led_chrono m /\
    digital_in m' = digital_in m /\
    analog_in m' = analog_in m.
Proof.
  destruct m as [rv pt ps ls dm nle npe lc pc now din ain pout tr].
  unfold reset_pressed, display_present, pot_reading. red_machine.
  intros Hreset. red_start. cbn [while_]. red_start.
  rewrite Hreset. red_start.
  eexists. split; [reflexivity |].
  match goal with
  | |- context [pass_events ?a ?b] =>
      erewrite (pass_events_app a b);
      [| red_machine; rewrite <- ?List.app_assoc; reflexivity]
  end.
  red_machine. rewrite !to_unsigned_add.
  repeat split; reflexivity.
Qed.

Lemma setup_completes_witness :
  exists m',
    setup 1 (power_on (pins HIGH) (analogs 0 1023)) = Done tt m' /\
    attached (pass_events (power_on (pins HIGH) (analogs 0 1023)) m') =
      [(reset_switch, FALLING); (prime_switch, CHANGE);
       (empty_switch, CHANGE); (disp_present, CHANGE)] /\
    writes_to int_led (pass_events (power_on (pins HIGH) (analogs 0 1023)) m')
      = [HIGH; LOW; HIGH; LOW; HIGH; LOW] /\
    delays (pass_events (power_on (pins HIGH) (analogs 0 1023)) m')
      = [250; 250; 250; 250; 250; 250] /\
    millis m' =
      Int32.to_unsigned (millis (power_on (pins HIGH) (analogs 0 1023)) + 1500) /\
    writes_to pump (pass_events (power_on (pins HIGH) (analogs 0 1023)) m')
      = [LOW] /\
    pin_out m' pump = LOW /\
    writes_to signal_led
      (pass_events (power_on (pins HIGH) (analogs 0 1023)) m') = [HIGH] /\
    pin_out m' signal_led = HIGH /\
    pump_res_val m' = pot_reading (power_on (pins HIGH) (analogs 0 1023)) /\
    pump_time m' =
      pump_time_of (pot_reading (power_on (pins HIGH) (analogs 0 1023))) /\
    next_pump_event m' = pump_time m' /\
    diag_mode m' = display_present (power_on (pins HIGH) (analogs 0 1023)) /\
    pump_state m' = pump_state (power_on (pins HIGH) (analogs 0 1023)) /\
    led_state m' = led_state (power_on (pins HIGH) (analogs 0 1023)) /\
    pump_chrono m' = pump_chrono (power_on (pins HIGH) (analogs 0 1023)) /\
    led_chrono m' = led_chrono (power_on (pins HIGH) (analogs 0 1023)) /\
    digital_in m' = digital_in (power_on (pins HIGH) (analogs 0 1023)) /\
    analog_in m' = analog_in (power_on (pins HIGH) (analogs 0 1023)).
Proof.
  apply (setup_completes 0 (power_on (pins HIGH) (analogs 0 1023))).
  reflexivity.
Defined.

(** X2: while the reset switch is held down, [setup] does not return,
    whatever the fuel: it has flashed the on-board LED, but no interrupt is
    attached yet and neither the pump nor the signal LED has been written. *)
Theorem setup_held_in_reset (fuel : nat) (m : Machine) :
  reset_pressed m = true ->
  exists m',
    setup fuel m = Spinning m' /\
    attached (pass_events m m') = [] /\
    writes_to int_led (pass_events m m') = [HIGH; LOW; HIGH; LOW; HIGH; LOW] /\
    writes_to pump (pass_events m m') = [] /\
    writes_to signal_led (pass_events m m') = [] /\
    pin_out m' pump = pin_out m pump /\
    pump_time m' = pump_time m /\
    diag_mode m' = diag_mode m.
Proof.
  destruct m as [rv pt ps ls dm nle npe lc pc now din ain pout tr].
  unfold reset_pressed. red_machine.
  intros Hreset. red_start.
  match goal with
  | |- exists m', match while_ fuel ?c ?b ?m0 with _ => _ end = _ /\ _ =>
      assert (Hspin : forall n, while_ n c b m0 = Spinning m0)
  end.
  { intros n. induction n as [| n IH]; [reflexivity |].
    cbn [while_]. red_machine. rewrite Hreset. exact IH. }
  rewrite Hspin. eexists. split; [reflexivity |].
  match goal with
  | |- context [pass_events ?a ?b] =>
      erewrite (pass_events_app a b);
      [| red_machine; rewrite <- ?List.app_assoc; reflexivity]
  end.
  red_machine. repeat split; reflexivity.
Qed.

Lemma setup_held_in_reset_witness :
  exists m',
    setup 7 (power_on (fun _ => LOW) (fun _ => 0)) = Spinning m' /\
    attached (pass_events (power_on (fun _ => LOW) (fun _ => 0)) m') = [] /\
    writes_to int_led (pass_events (power_on (fun _ => LOW) (fun _ => 0)) m')
      = [HIGH; LOW; HIGH; LOW; HIGH; LOW] /\
    writes_to pump (pass_events (power_on (fun _ => LOW) (fun _ => 0)) m')
      = [] /\
    writes_to signal_led
      (pass_events (power_on (fun _ => LOW) (fun _ => 0)) m') = [] /\
    pin_out m' pump = pin_out (power_on (fun _ => LOW) (fun _ => 0)) pump /\
    pump_time m' = pump_time (power_on (fun _ => LOW) (fun _ => 0)) /\
    diag_mode m' = diag_mode (power_on (fun _ => LOW) (fun _ => 0)).
Proof.
  apply (setup_held_in_reset 7 (power_on (fun _ => LOW) (fun _ => 0))).
  reflexivity.
Defined.

(** ** Runs of passes *)

Lemma prime_engaged_run_witness :
  exists m' evs,
    run 0 [mkEnv 2000 (pins LOW) (analogs 600 0);
           mkEnv 7000 (pins LOW) (analogs 600 0)]
      (pumping_at 1500 LOW 600 0) = Done tt m' /\
    pump_state m' = true /\
    trace m' = trace (pumping_at 1500 LOW 600 0) ++ evs /\
    writes_to pump evs = List.repeat HIGH 2.
Proof.
  apply (prime_engaged_run 0
           [mkEnv 2000 (pins LOW) (analogs 600 0);
            mkEnv 7000 (pins LOW) (analogs 600 0)]
           (pumping_at 1500 LOW 600 0)).
  - reflexivity.
  - reflexivity.
  - repeat constructor.
Defined.

(** X4: the sketch suppresses watering in the dark once it is idle: from an
    idle state, over any run of passes with water in the tank, the prime
    switch disengaged and darkness at every pass, the pump state stays false
    and every pass writes the pump output low, however many hours go by. *)
Theorem dark_idle_run (fuel : nat) (es : list Env) (m : Machine) :
  diag_mode m = false ->
  pump_state m = false ->
  Forall (fun e => env_has_water e = true /\
                   env_prime_released e = true /\
                   env_dark e = true) es ->
  exists m' evs,
    run fuel es m = Done tt m' /\
    pump_state m' = false /\
    trace m' = trace m ++ evs /\
    writes_to pump evs = List.repeat LOW (List.length es).
Proof.
  intros Hd Hps Hall. revert m Hd Hps.
  induction Hall as [| e es (Hwater & Hprime & Hdark) _ IH]; intros m Hd Hps.
  - exists m, []. cbn. rewrite List.app_nil_r. repeat split; assumption.
  - cbn [run].
    assert (Hop : operational (with_env e m) = true).
    { unfold operational, tank_empty. cbn. rewrite Hd. exact Hwater. }
    rewrite (loop_operational fuel _ Hop).
    destruct (loop_watering_run (with_env e m))
      as (m1 & Hrun & Hps1 & _ & _ & Htr & _ & _ & _ & _ & _ & Hdm).
    rewrite Hrun.
    assert (Hoff : pump_state m1 = false).
    { rewrite Hps1.
      unfold env_prime_released in Hprime. unfold env_dark in Hdark.
      apply negb_true_iff in Hprime, Hdark.
      unfold prime_engaged, is_light. cbn [digital_in analog_in with_env].
      rewrite Hprime, Hdark.
      destruct (pump_timer_elapsed (with_env e m)).
      - cbn. apply andb_false_r.
      - exact Hps. }
    destruct (IH m1) as (m' & evs & Hrun' & Hps' & Htr' & Hw);
      [rewrite Hdm; exact Hd | exact Hoff |].
    eexists m', _. split; [exact Hrun' |]. split; [exact Hps' |].
    rewrite Htr', Htr, Hoff. cbn [trace with_env].
    rewrite <- List.app_assoc. split; [reflexivity |].
    rewrite writes_to_app, Hw.
    destruct (pump_timer_elapsed (with_env e m)),
      (led_timer_elapsed (next_led_event m1) (with_env e m)); reflexivity.
Qed.

Lemma dark_idle_run_witness :
  exists m' evs,
    run 0 [mkEnv 3600000 (pins HIGH) (analogs 900 0);
           mkEnv 7200000 (pins HIGH) (analogs 512 0)]
      (idle_at 0 HIGH 900 0) = Done tt m' /\
    pump_state m' = false /\
    trace m' = trace (idle_at 0 HIGH 900 0) ++ evs /\
    writes_to pump evs = List.repeat LOW 2.
Proof.
  apply (dark_idle_run 0
           [mkEnv 3600000 (pins HIGH) (analogs 900 0);
            mkEnv 7200000 (pins HIGH) (analogs 512 0)]
           (idle_at 0 HIGH 900 0)).
  - reflexivity.
  - reflexivity.
  - repeat constructor.
Defined.

(** X5: outside diagnostic mode, a run of passes with water in the tank
    never gets stuck; every pass writes the pump output exactly once, and
    after the last pass the pump pin carries the pump state. *)
Theorem watering_run_drives_pump (fuel : nat) (es : list Env) (m : Machine) :
  diag_mode m = false ->
  Forall (fun e => env_has_water e = true) es ->
  exists m' evs,
    run fuel es m = Done tt m' /\
    diag_mode m' = false /\
    trace m' = trace m ++ evs /\
    List.length (writes_to pump evs) = List.length es /\
    (es <> [] -> pin_out m' pump = Z.b2z (pump_state m')).
Proof.
  intros Hd Hall. revert m Hd.
  induction Hall as [| e es Hwater Hall IH]; intros m Hd.
  - exists m, []. cbn. rewrite List.app_nil_r.
    repeat split; try assumption. intros H. contradiction.
  - cbn [run].
    assert (Hop : operational (with_env e m) = true).
    { unfold operational, tank_empty. cbn. rewrite Hd. exact Hwater. }
    rewrite (loop_operational fuel _ Hop).
    destruct (loop_watering_run (with_env e m))
      as (m1 & Hrun & _ & _ & _ & Htr & _ & _ & Hpin & _ & _ & Hdm).
    rewrite Hrun.
    destruct (IH m1) as (m' & evs & Hrun' & Hd' & Htr' & Hlen & Hlast);
      [rewrite Hdm; exact Hd |].
    eexists m', _. split; [exact Hrun' |]. split; [exact Hd' |].
    rewrite Htr', Htr. cbn [trace with_env].
    rewrite <- List.app_assoc. split; [reflexivity |]. split.
    + rewrite writes_to_app, List.length_app, Hlen.
      destruct (pump_timer_elapsed (with_env e m)),
        (led_timer_elapsed (next_led_event m1) (with_env e m)); reflexivity.
    + intros _. destruct es as [| e' es'].
      * cbn in Hrun'. injection Hrun' as <-. exact Hpin.
      * apply Hlast. discriminate.
Qed.

Lemma watering_run_drives_pump_witness :
  exists m' evs,
    run 0 [mkEnv 4000 (pins HIGH) (analogs 0 0);
           mkEnv 5000 (pins HIGH) (analogs 0 0);
           mkEnv 6000 (pins HIGH) (analogs 0 0)]
      (pumping_at 1500 HIGH 0 0) = Done tt m' /\
    diag_mode m' = false /\
    trace m' = trace (pumping_at 1500 HIGH 0 0) ++ evs /\
    List.length (writes_to pump evs) = 3%nat /\
    ([mkEnv 4000 (pins HIGH) (analogs 0 0);
      mkEnv 5000 (pins HIGH) (analogs 0 0);
      mkEnv 6000 (pins HIGH) (analogs 0 0)] <> [] ->
     pin_out m' pump = Z.b2z (pump_state m')).
Proof.
  apply (watering_run_drives_pump 0
           [mkEnv 4000 (pins HIGH) (analogs 0 0);
            mkEnv 5000 (pins HIGH) (analogs 0 0);
            mkEnv 6000 (pins HIGH) (analogs 0 0)]
           (pumping_at 1500 HIGH 0 0)).
  - reflexivity.
  - repeat constructor.
Defined.

(** ** Diagnostic mode *)

(** X6: diagnostic mode is purely observational and lasts: from a state in
    diagnostic mode, any run of passes returns, whatever the inputs (tank
    empty or not); no output pin is written, the pump state, the LED state
    and both chronos are untouched, every pass waits four times two seconds,
    and the sketch is still in diagnostic mode afterwards. *)
Theorem diagnostic_run_frame (fuel : nat) (es : list Env) (m : Machine) :
  diag_mode m = true ->
  exists m' evs,
    run fuel es m = Done tt m' /\
    diag_mode m' = true /\
    trace m' = trace m ++ evs /\
    writes_to pump evs = [] /\
    writes_to signal_led evs = [] /\
    delays evs = List.repeat 2000 (4 * List.length es) /\
    pin_out m' = pin_out m /\
    pump_state m' = pump_state m /\
    led_state m' = led_state m /\
    pump_chrono m' = pump_chrono m /\
    led_chrono m' = led_chrono m.
Proof.
  revert m. induction es as [| e es IH]; intros m Hd.
  - exists m, []. cbn. rewrite List.app_nil_r. repeat split; assumption.
  - cbn [run].
    assert (Hd0 : diag_mode (with_env e m) = true) by exact Hd.
    rewrite (loop_diag fuel _ Hd0).
    destruct (loop_diagnostics_run (with_env e m))
      as (m1 & Hrun & Htr & Hpin & Hps & Hls & Hpc & Hlc & _ & _ & Hdm & _).
    rewrite Hrun.
    destruct (IH m1)
      as (m' & evs & Hrun' & Hd' & Htr' & Hwp & Hwl & Hdel & Hpin' & Hps'
          & Hls' & Hpc' & Hlc');
      [rewrite Hdm; exact Hd |].
    eexists m', _. split; [exact Hrun' |]. split; [exact Hd' |].
    rewrite Htr', Htr, Hpin', Hpin, Hps', Hps, Hls', Hls, Hpc', Hpc, Hlc', Hlc.
    cbn [trace with_env]. rewrite <- List.app_assoc.
    split; [reflexivity |].
    rewrite !writes_to_app, Hwp, Hwl.
    repeat split; try reflexivity.
    replace (4 * List.length (e :: es))%nat
      with (4 + 4 * List.length es)%nat by (cbn [List.length]; lia).
    cbn [List.repeat Nat.add]. rewrite <- Hdel. reflexivity.
Qed.

Lemma diagnostic_run_frame_witness :
  exists m' evs,
    run 0 [mkEnv 0 (fun _ => LOW) (analogs 0 0);
           mkEnv 8000 (pins HIGH) (analogs 1023 1023)]
      (set_diag_mode true (pumping_at 0 HIGH 0 0)) = Done tt m' /\
    diag_mode m' = true /\
    trace m' = trace (set_diag_mode true (pumping_at 0 HIGH 0 0)) ++ evs /\
    writes_to pump evs = [] /\
    writes_to signal_led evs = [] /\
    delays evs = List.repeat 2000 (4 * 2) /\
    pin_out m' = pin_out (set_diag_mode true (pumping_at 0 HIGH 0 0)) /\
    pump_state m' = pump_state (set_diag_mode true (pumping_at 0 HIGH 0 0)) /\
    led_state m' = led_state (set_diag_mode true (pumping_at 0 HIGH 0 0)) /\
    pump_chrono m' = pump_chrono (set_diag_mode true (pumping_at 0 HIGH 0 0)) /\
    led_chrono m' = led_chrono (set_diag_mode true (pumping_at 0 HIGH 0 0)).
Proof.
  apply (diagnostic_run_frame 0
           [mkEnv 0 (fun _ => LOW) (analogs 0 0);
            mkEnv 8000 (pins HIGH) (analogs 1023 1023)]
           (set_diag_mode true (pumping_at 0 HIGH 0 0))).
  reflexivity.
Defined.

Lemma percent_of_reading (v : Z) :
  0 <= v <= 1023 ->
  Int32.div (Int32.mul v 100) 1023 = v * 100 / 1023 /\
  0 <= v * 100 / 1023 <= 100.
Proof.
  intros Hv.
  assert (Hq : 0 <= v * 100 / 1023 <= 100).
  { split; [apply Z.div_pos; lia | apply Z.div_le_upper_bound; lia]. }
  split; [| exact Hq].
  unfold Int32.div, Int32.mul.
  rewrite (wrap_small (v * 100))
    by (unfold Int32.in_range, Int32.half_modulus; lia).
  rewrite Z.quot_div_nonneg by lia.
  apply wrap_small. unfold Int32.in_range, Int32.half_modulus. lia.
Qed.

Lemma minutes_seconds (t : Z) :
  0 <= t <= 600000 ->
  Int32.div t 60000 = t / 60000 /\
  Int32.rem (Int32.div t 1000) 60 = (t / 1000) mod 60 /\
  0 <= t / 60000 <= 10 /\
  0 <= (t / 1000) mod 60 <= 59 /\
  60 * (t / 60000) + (t / 1000) mod 60 = t / 1000.
Proof.
  intros Ht.
  assert (Hm : 0 <= t / 60000 <= 10).
  { split; [apply Z.div_pos; lia | apply Z.div_le_upper_bound; lia]. }
  assert (Hk : 0 <= t / 1000 <= 600).
  { split; [apply Z.div_pos; lia | apply Z.div_le_upper_bound; lia]. }
  assert (Hs : 0 <= (t / 1000) mod 60 < 60) by (apply Z.mod_pos_bound; lia).
  unfold Int32.div, Int32.rem.
  rewrite !Z.quot_div_nonneg by lia.
  rewrite (wrap_small (t / 60000))
    by (unfold Int32.in_range, Int32.half_modulus; lia).
  rewrite (wrap_small (t / 1000))
    by (unfold Int32.in_range, Int32.half_modulus; lia).
  rewrite Z.rem_mod_nonneg by lia.
  rewrite (wrap_small ((t / 1000) mod 60))
    by (unfold Int32.in_range, Int32.half_modulus; lia).
  repeat split; try lia.
  replace 60000 with (1000 * 60) by reflexivity.
  rewrite <- Z.div_div by lia.
  pose proof (Z.div_mod (t / 1000) 60 ltac:(lia)). lia.
Qed.

(** X7: the numbers of the diagnostic screens.  The light level shown is
    (1023 - reading) * 100 / 1023 and the potentiometer level is
    reading * 100 / 1023, both between 0 and 100; the pump time is shown as
    minutes (at most 10) and seconds (below 60) that together make up the
    pump time in whole seconds.  No computation overflows. *)
Theorem diagnostic_numbers (fuel : nat) (m : Machine) :
  diag_mode m = true ->
  exists m',
    loop fuel m = Done tt m' /\
    lcd_ints (pass_events m m') =
      [(1023 - analog_in m ldr mod 1024) * 100 / 1023;
       pot_reading m * 100 / 1023;
       pump_time_of (pot_reading m) / 60000;
       (pump_time_of (pot_reading m) / 1000) mod 60] /\
    0 <= (1023 - analog_in m ldr mod 1024) * 100 / 1023 <= 100 /\
    0 <= pot_reading m * 100 / 1023 <= 100 /\
    0 <= pump_time_of (pot_reading m) / 60000 <= 10 /\
    0 <= (pump_time_of (pot_reading m) / 1000) mod 60 <= 59 /\
    60 * (pump_time_of (pot_reading m) / 60000)
      + (pump_time_of (pot_reading m) / 1000) mod 60
      = pump_time_of (pot_reading m) / 1000 /\
    pump_time m' = pump_time_of (pot_reading m).
Proof.
  intros Hd. rewrite (loop_diag fuel m Hd).
  destruct (loop_diagnostics_run m)
    as (m' & Hrun & Htr & _ & _ & _ & _ & _ & _ & _ & _ & _ & Hpt).
  exists m'. split; [exact Hrun |].
  rewrite (pass_events_app _ _ _ Htr). cbn [lcd_ints].
  assert (Hv : 0 <= analog_in m ldr mod 1024 <= 1023).
  { pose proof (Z.mod_pos_bound (analog_in m ldr) 1024 ltac:(lia)). lia. }
  assert (Hr := pot_reading_range m).
  assert (Ht : 0 <= pump_time_of (pot_reading m) <= 600000).
  { rewrite pump_time_of_formula by exact Hr. unfold pump_time_formula.
    assert (0 <= 595000 * pot_reading m / 1023 <= 595000); [| lia].
    split; [apply Z.div_pos; lia | apply Z.div_le_upper_bound; lia]. }
  assert (Hsub : Int32.sub 1023 (analog_in m ldr mod 1024)
                 = 1023 - analog_in m ldr mod 1024).
  { apply wrap_small. unfold Int32.in_range, Int32.half_modulus. lia. }
  rewrite Hsub.
  destruct (percent_of_reading (1023 - analog_in m ldr mod 1024))
    as (Hl1 & Hl2); [lia |].
  destruct (percent_of_reading (pot_reading m)) as (Hp1 & Hp2); [exact Hr |].
  destruct (minutes_seconds (pump_time_of (pot_reading m)) Ht)
    as (Hm1 & Hs1 & Hm2 & Hs2 & Hms).
  rewrite Hl1, Hp1, Hm1, Hs1.
  repeat split; try assumption; lia.
Qed.

Lemma diagnostic_numbers_witness :
  exists m',
    loop 0 (set_diag_mode true (pumping_at 0 HIGH 100 512)) = Done tt m' /\
    lcd_ints (pass_events (set_diag_mode true (pumping_at 0 HIGH 100 512)) m') =
      [(1023 - analog_in (set_diag_mode true (pumping_at 0 HIGH 100 512)) ldr
                 mod 1024) * 100 / 1023;
       pot_reading (set_diag_mode true (pumping_at 0 HIGH 100 512)) * 100 / 1023;
       pump_time_of
         (pot_reading (set_diag_mode true (pumping_at 0 HIGH 100 512))) / 60000;
       (pump_time_of
          (pot_reading (set_diag_mode true (pumping_at 0 HIGH 100 512))) / 1000)
         mod 60] /\
    0 <= (1023 - analog_in (set_diag_mode true (pumping_at 0 HIGH 100 512)) ldr
                   mod 1024) * 100 / 1023 <= 100 /\
    0 <= pot_reading (set_diag_mode true (pumping_at 0 HIGH 100 512)) * 100
           / 1023 <= 100 /\
    0 <= pump_time_of
           (pot_reading (set_diag_mode true (pumping_at 0 HIGH 100 512)))
           / 60000 <= 10 /\
    0 <= (pump_time_of
            (pot_reading (set_diag_mode true (pumping_at 0 HIGH 100 512)))
            / 1000) mod 60 <= 59 /\
    60 * (pump_time_of
            (pot_reading (set_diag_mode true (pumping_at 0 HIGH 100 512)))
            / 60000)
      + (pump_time_of
           (pot_reading (set_diag_mode true (pumping_at 0 HIGH 100 512)))
           / 1000) mod 60
      = pump_time_of
          (pot_reading (set_diag_mode true (pumping_at 0 HIGH 100 512)))
          / 1000 /\
    pump_time m' =
      pump_time_of
        (pot_reading (set_diag_mode true (pumping_at 0 HIGH 100 512))).
Proof.
  apply (diagnostic_numbers 0 (set_diag_mode true (pumping_at 0 HIGH 100 512))).
  reflexivity.
Defined.

(** X8: the texts of the diagnostic screens follow the inputs: water or
    empty tank from the tank switch, day or night from [light] (the test the
    watering cycle uses), prime on or off from the prime switch. *)
Theorem diagnostic_texts (fuel : nat) (m : Machine) :
  diag_mode m = true ->
  exists m',
    loop fuel m = Done tt m' /\
    lcd_strs (pass_events m m') =
      [if tank_empty m then "Tank is empty" else "We have water";
       "Light = "; "%";
       if is_light m then "It's daytime" else "It's night";
       "Pot 1 = "; "%"; "Time = "; ":";
       if prime_engaged m then "Prime is on" else "Prime is off"]%string.
Proof.
  intros Hd. rewrite (loop_diag fuel m Hd).
  destruct (loop_diagnostics_run m) as (m' & Hrun & Htr & _).
  exists m'. split; [exact Hrun |].
  rewrite (pass_events_app _ _ _ Htr). reflexivity.
Qed.

Lemma diagnostic_texts_witness :
  exists m',
    loop 0 (set_diag_mode true dry_machine) = Done tt m' /\
    lcd_strs (pass_events (set_diag_mode true dry_machine) m') =
      [if tank_empty (set_diag_mode true dry_machine)
       then "Tank is empty" else "We have water";
       "Light = "; "%";
       if is_light (set_diag_mode true dry_machine)
       then "It's daytime" else "It's night";
       "Pot 1 = "; "%"; "Time = "; ":";
       if prime_engaged (set_diag_mode true dry_machine)
       then "Prime is on" else "Prime is off"]%string.
Proof.
  apply (diagnostic_texts 0 (set_diag_mode true dry_machine)). reflexivity.
Defined.

(** ** More on the watering pass *)

(** X9: an operational pass keeps the signal LED pin in step with the LED
    state: if the pin carries the inverse of [led_state] before the pass, it
    does so after it. *)
Theorem led_pin_tracks_led_state (fuel : nat) (m : Machine) :
  operational m = true ->
  pin_out m signal_led = Z.b2z (negb (led_state m)) ->
  exists m',
    loop fuel m = Done tt m' /\
    pin_out m' signal_led = Z.b2z (negb (led_state m')).
Proof.
  intros Hop Hinv. rewrite (loop_operational fuel m Hop).
  destruct (loop_watering_run m)
    as (m' & Hrun & _ & _ & Hls & _ & _ & _ & _ & Hpin & _).
  exists m'. split; [exact Hrun |].
  rewrite Hpin.
  destruct (led_timer_elapsed (next_led_event m') m); [reflexivity |].
  rewrite Hls. exact Hinv.
Qed.

Lemma led_pin_tracks_led_state_witness :
  exists m',
    loop 0 (pumping_at 500 HIGH 0 0) = Done tt m' /\
    pin_out m' signal_led = Z.b2z (negb (led_state m')).
Proof.
  apply (led_pin_tracks_led_state 0 (pumping_at 500 HIGH 0 0)); reflexivity.
Defined.

(** X10: no relay chatter: a timer edge re-arms the cycle timer, and a
    pass less than 5 seconds after the edge (with water in the tank) neither
    restarts the timer nor changes the pump state, whatever the light, the
    prime switch and the potentiometer read then. *)
Theorem timer_edge_rearms (fuel : nat) (m : Machine) (e : Env) :
  operational m = true ->
  pump_timer_elapsed m = true ->
  env_has_water e = true ->
  0 <= env_millis e - millis m < 5000 ->
  exists m' m'',
    loop fuel m = Done tt m' /\
    loop fuel (with_env e m') = Done tt m'' /\
    restarted PumpChrono (pass_events m' m'') = false /\
    pump_state m'' = pump_state m' /\
    pin_out m'' pump = pin_out m' pump.
Proof.
  intros Hop Hel Hwater Ht. rewrite (loop_operational fuel m Hop).
  destruct (loop_watering_run m)
    as (m' & Hrun & _ & _ & _ & _ & Hpc & _ & Hpin & _ & _ & Hdm).
  rewrite Hel in Hpc.
  assert (Hop' : operational (with_env e m') = true).
  { unfold operational, tank_empty in *.
    cbn [diag_mode digital_in with_env]. rewrite Hdm.
    apply andb_prop in Hop. destruct Hop as (Hd & _). rewrite Hd.
    exact Hwater. }
  assert (Hel' : pump_timer_elapsed (with_env e m') = false).
  { unfold pump_timer_elapsed. cbn [pump_chrono millis with_env].
    rewrite Hpc. unfold chrono_elapsed. cbn [startTime].
    rewrite (to_unsigned_small (env_millis e - millis m))
      by (unfold Int32.modulus; lia).
    pose proof (pump_threshold_range (with_env e m')). apply Z.leb_gt. lia. }
  destruct (loop_watering_run (with_env e m'))
    as (m'' & Hrun' & Hps' & _ & _ & Htr' & _ & _ & Hpin' & _).
  exists m', m''. split; [exact Hrun |].
  rewrite (loop_operational fuel _ Hop').
  split; [exact Hrun' |].
  rewrite Hel' in Hps', Htr'. cbn [pump_state trace with_env] in Hps', Htr'.
  rewrite (pass_events_app _ _ _ Htr'), Hpin', Hpin, Hps'.
  split; [| split; reflexivity].
  destruct (led_timer_elapsed (next_led_event m'') (with_env e m'));
    reflexivity.
Qed.

Lemma timer_edge_rearms_witness :
  exists m' m'',
    loop 0 (idle_at 3600000 HIGH 0 0) = Done tt m' /\
    loop 0 (with_env (mkEnv 3604999 (pins LOW) (analogs 900 0)) m')
      = Done tt m'' /\
    restarted PumpChrono (pass_events m' m'') = false /\
    pump_state m'' = pump_state m' /\
    pin_out m'' pump = pin_out m' pump.
Proof.
  apply (timer_edge_rearms 0 (idle_at 3600000 HIGH 0 0)
           (mkEnv 3604999 (pins LOW) (analogs 900 0)));
    [reflexivity | reflexivity | reflexivity | cbn; lia].
Defined.

(** X11: what an operational pass stores: the potentiometer reading, the
    pump time derived from it, always between 5 seconds and 10 minutes, and
    as threshold of the cycle timer that pump time if the pump was on when
    the pass began and one hour if it was off. *)
Theorem watering_pass_timing (fuel : nat) (m : Machine) :
  operational m = true ->
  exists m',
    loop fuel m = Done tt m' /\
    pump_res_val m' = pot_reading m /\
    pump_time m' = 5000 + (595000 * pot_reading m) / 1023 /\
    5000 <= pump_time m' <= 600000 /\
    next_pump_event m' = (if pump_state m then pump_time m' else 3600000).
Proof.
  intros Hop. rewrite (loop_operational fuel m Hop).
  destruct (loop_watering_run m)
    as (m' & Hrun & _ & _ & _ & _ & _ & _ & _ & _ & Hpt & _).
  destruct (loop_watering_frame m) as (m1 & Hrun1 & Hnpe & Hrv & _).
  rewrite Hrun in Hrun1. injection Hrun1 as <-.
  exists m'. split; [exact Hrun |]. split; [exact Hrv |].
  pose proof (pot_reading_range m) as Hr.
  rewrite Hnpe, Hpt. unfold pump_threshold.
  rewrite pump_time_of_formula by exact Hr. unfold pump_time_formula.
  split; [reflexivity |]. split; [| reflexivity].
  assert (0 <= 595000 * pot_reading m / 1023 <= 595000); [| lia].
  split; [apply Z.div_pos; lia | apply Z.div_le_upper_bound; lia].
Qed.

Lemma watering_pass_timing_witness :
  exists m',
    loop 0 (idle_at 10 HIGH 0 700) = Done tt m' /\
    pump_res_val m' = pot_reading (idle_at 10 HIGH 0 700) /\
    pump_time m' = 5000 + (595000 * pot_reading (idle_at 10 HIGH 0 700)) / 1023 /\
    5000 <= pump_time m' <= 600000 /\
    next_pump_event m' =
      (if pump_state (idle_at 10 HIGH 0 700) then pump_time m' else 3600000).
Proof.
  apply (watering_pass_timing 0 (idle_at 10 HIGH 0 700)); reflexivity.
Defined.

(** X12: the pump time computation has headroom: the product
    [(max_time - min_time) * reading] fits an [int] exactly for the readings
    up to 3609, and for all of them the derived pump time is the unbounded
    5000 + (595000 * r) / 1023. *)
Theorem pump_time_headroom (r : Z) :
  0 <= r ->
  (Int32.in_range (595000 * r) <-> r <= 3609) /\
  (r <= 3609 -> pump_time_of r = 5000 + (595000 * r) / 1023).
Proof.
  intros H0. split.
  - unfold Int32.in_range, Int32.half_modulus. split; intros H; lia.
  - intros Hr. unfold pump_time_of.
    unfold Int32.add, Int32.div, Int32.mul, Int32.sub, max_time, min_time.
    change (600000 - 5000) with 595000.
    rewrite (wrap_small 595000)
      by (unfold Int32.in_range, Int32.half_modulus; lia).
    rewrite (wrap_small (595000 * r))
      by (unfold Int32.in_range, Int32.half_modulus; lia).
    rewrite Z.quot_div_nonneg by lia.
    assert (Hq : 0 <= 595000 * r / 1023 <= 2100000).
    { split; [apply Z.div_pos; lia | apply Z.div_le_upper_bound; lia]. }
    rewrite (wrap_small (595000 * r / 1023))
      by (unfold Int32.in_range, Int32.half_modulus; lia).
    apply wrap_small. unfold Int32.in_range, Int32.half_modulus. lia.
Qed.

Lemma pump_time_headroom_witness :
  (Int32.in_range (595000 * 3609) <-> 3609 <= 3609) /\
  (3609 <= 3609 -> pump_time_of 3609 = 5000 + (595000 * 3609) / 1023).
Proof. apply (pump_time_headroom 3609). lia. Defined.

(** ** Reset *)

(** [setup] run on any state in which the reset switch is released. *)
Lemma setup_run_any (fuel : nat) (m : Machine) :
  reset_pressed m = false ->
  exists m' evs,
    setup (S fuel) m = Done tt m' /\
    trace m' = trace m ++ evs /\
    writes_to pump evs = [LOW] /\
    pin_out m' pump = LOW /\
    pin_out m' signal_led = HIGH /\
    millis m' = Int32.to_unsigned (millis m + 1500) /\
    diag_mode m' = display_present m /\
    pump_state m' = pump_state m /\
    led_state m' = led_state m /\
    pump_chrono m' = pump_chrono m /\
    led_chrono m' = led_chrono m /\
    digital_in m' = digital_in m /\
    analog_in m' = analog_in m.
Proof.
  destruct m as [rv pt ps ls dm nle npe lc pc now din ain pout tr].
  unfold reset_pressed, display_present. red_machine.
  intros Hreset. red_start. cbn [while_]. red_start.
  rewrite Hreset. red_start.
  eexists. eexists. split; [reflexivity |]. red_machine.
  split; [rewrite <- ?List.app_assoc; reflexivity |].
  rewrite !to_unsigned_add. repeat split; reflexivity.
Qed.

(** X13: a reset aborts whatever the sketch was doing and starts a pump
    run: from any state, after [rst_ISR] and [setup] (no display, reset
    switch released when [setup] samples it), a pass of [loop] that finds
    water in the tank within the first 5 seconds after the reset energizes
    the pump, in the dark as in the light and whatever the prime switch. *)
Theorem reset_starts_pump_run (fuel : nat) (m : Machine) (e : Env) :
  reset_pressed m = false ->
  display_present m = false ->
  env_has_water e = true ->
  0 <= env_millis e < 5000 ->
  exists m1 m2,
    setup (S fuel) (rst_ISR m) = Done tt m1 /\
    loop fuel (with_env e m1) = Done tt m2 /\
    pump_state m2 = true /\
    writes_to pump (pass_events m1 m2) = [HIGH] /\
    pin_out m2 pump = HIGH.
Proof.
  intros Hreset Hdisp Hwater Ht.
  destruct (setup_run_any fuel (rst_ISR m) Hreset)
    as (m1 & evs & Hsetup & _ & _ & _ & _ & _ & Hdm & Hps & _ & Hpc & _).
  change (display_present (rst_ISR m)) with (display_present m) in Hdm.
  change (pump_state (rst_ISR m)) with true in Hps.
  change (pump_chrono (rst_ISR m)) with (mkChrono 0) in Hpc.
  assert (Hop : operational (with_env e m1) = true).
  { unfold operational, tank_empty. cbn [diag_mode digital_in with_env].
    rewrite Hdm, Hdisp. exact Hwater. }
  assert (Hel : pump_timer_elapsed (with_env e m1) = false).
  { unfold pump_timer_elapsed. cbn [pump_chrono millis with_env].
    rewrite Hpc. unfold chrono_elapsed. cbn [startTime].
    rewrite Z.sub_0_r.
    rewrite (to_unsigned_small (env_millis e)) by (unfold Int32.modulus; lia).
    pose proof (pump_threshold_range (with_env e m1)). apply Z.leb_gt. lia. }
  destruct (loop_watering_run (with_env e m1))
    as (m2 & Hrun & Hps2 & _ & _ & Htr & _ & _ & Hpin & _).
  exists m1, m2. split; [exact Hsetup |].
  rewrite (loop_operational fuel _ Hop). split; [exact Hrun |].
  rewrite Hel in Hps2, Htr. cbn [pump_state with_env] in Hps2.
  rewrite Hps in Hps2. cbn [trace with_env] in Htr.
  rewrite (pass_events_app _ _ _ Htr), Hpin, Hps2.
  split; [reflexivity |]. split; [| reflexivity].
  destruct (led_timer_elapsed (next_led_event m2) (with_env e m1));
    reflexivity.
Qed.

Lemma reset_starts_pump_run_witness :
  exists m1 m2,
    setup 1 (rst_ISR (idle_at 100000 HIGH 900 0)) = Done tt m1 /\
    loop 0 (with_env (mkEnv 1600 (pins HIGH) (analogs 900 0)) m1)
      = Done tt m2 /\
    pump_state m2 = true /\
    writes_to pump (pass_events m1 m2) = [HIGH] /\
    pin_out m2 pump = HIGH.
Proof.
  apply (reset_starts_pump_run 0 (idle_at 100000 HIGH 900 0)
           (mkEnv 1600 (pins HIGH) (analogs 900 0)));
    [reflexivity | reflexivity | reflexivity | cbn; lia].
Defined.

(** X14: a reset with the tank empty ends in the alarm with the pump off:
    after [rst_ISR] and [setup], with no display and the reset switch
    released, [loop] never returns, and from the reset on the only write to
    the pump pin is the low written by [setup]. *)
Theorem reset_with_empty_tank (fuel : nat) (m : Machine) :
  reset_pressed m = false ->
  display_present m = false ->
  tank_empty m = true ->
  exists m1 m2,
    setup (S fuel) (rst_ISR m) = Done tt m1 /\
    loop fuel m1 = Spinning m2 /\
    writes_to pump (pass_events (rst_ISR m) m2) = [LOW] /\
    pin_out m2 pump = LOW.
Proof.
  intros Hreset Hdisp Hdry.
  destruct (setup_run_any fuel (rst_ISR m) Hreset)
    as (m1 & evs & Hsetup & Htr & Hw & Hpin & _ & _ & Hdm & _ & _ & _ & _
        & Hdin & _).
  change (display_present (rst_ISR m)) with (display_present m) in Hdm.
  change (digital_in (rst_ISR m)) with (digital_in m) in Hdin.
  assert (Hd1 : diag_mode m1 = false) by (rewrite Hdm; exact Hdisp).
  assert (He1 : tank_empty m1 = true).
  { unfold tank_empty in *. rewrite Hdin. exact Hdry. }
  exists m1, (alarm_turns fuel m1). split; [exact Hsetup |].
  rewrite (loop_dry fuel m1 Hd1 He1), loop_tank_empty_spins.
  split; [reflexivity |].
  destruct (alarm_turns_run fuel m1) as (Htr' & Hpin' & _).
  rewrite Hpin', Hpin. split; [| reflexivity].
  rewrite Htr, <- List.app_assoc in Htr'.
  rewrite (pass_events_app _ _ _ Htr'), writes_to_app, Hw,
    writes_to_pump_alarm.
  reflexivity.
Qed.

Lemma reset_with_empty_tank_witness :
  exists m1 m2,
    setup 5 (rst_ISR dry_machine) = Done tt m1 /\
    loop 4 m1 = Spinning m2 /\
    writes_to pump (pass_events (rst_ISR dry_machine) m2) = [LOW] /\
    pin_out m2 pump = LOW.
Proof.
  apply (reset_with_empty_tank 4 dry_machine); reflexivity.
Defined.

(** ** Timing of the alarm *)

Lemma alarm_turns_clock (n : nat) (m : Machine) :
  Int32.to_unsigned (millis (alarm_turns n m)) =
    Int32.to_unsigned (millis m + 520 * Z.of_nat n) /\
  delays (List.concat (List.repeat alarm_flash_events n)) =
    List.concat (List.repeat [20; 500] n).
Proof.
  split.
  - revert m. induction n as [| n IH]; intros m.
    + cbn [alarm_turns]. f_equal. lia.
    + cbn [alarm_turns].
      destruct (alarm_flash_run m) as (m1 & Hrun & _).
      assert (Hmil : millis m1 = Int32.to_unsigned (millis m + 520)).
      { destruct m as [rv pt ps ls dm nle npe lc pc now din ain pout tr].
        revert Hrun. red_machine. intros Hrun. injection Hrun as <-.
        red_machine. apply to_unsigned_add. }
      rewrite Hrun, IH, Hmil.
      replace (Int32.to_unsigned (millis m + 520) + 520 * Z.of_nat n)
        with (Int32.to_unsigned (millis m + 520 + 0) + 520 * Z.of_nat n)
        by (f_equal; f_equal; lia).
      rewrite to_unsigned_add. f_equal. lia.
  - induction n as [| n IH]; [reflexivity |].
    cbn [List.repeat List.concat]. rewrite <- IH. reflexivity.
Qed.

(** X15: the alarm flashes with a period of 520 ms: after any number of
    turns of the alarm loop the clock has advanced by 520 ms per turn
    (modulo the 32 bits of the millisecond counter), spent in waits of 20 ms
    and 500 ms in turn. *)
Theorem tank_empty_alarm_period (fuel : nat) (m : Machine) :
  diag_mode m = false ->
  tank_empty m = true ->
  exists m',
    loop fuel m = Spinning m' /\
    Int32.to_unsigned (millis m') =
      Int32.to_unsigned (millis m + 520 * Z.of_nat fuel) /\
    delays (pass_events m m') = List.concat (List.repeat [20; 500] fuel).
Proof.
  intros Hd He. rewrite (loop_dry fuel m Hd He), loop_tank_empty_spins.
  exists (alarm_turns fuel m). split; [reflexivity |].
  destruct (alarm_turns_run fuel m) as (Htr & _).
  destruct (alarm_turns_clock fuel m) as (Hclock & Hdel).
  rewrite (pass_events_app _ _ _ Htr).
  split; assumption.
Qed.

Lemma tank_empty_alarm_period_witness :
  exists m',
    loop 10 dry_machine = Spinning m' /\
    Int32.to_unsigned (millis m') =
      Int32.to_unsigned (millis dry_machine + 520 * Z.of_nat 10) /\
    delays (pass_events dry_machine m') =
      List.concat (List.repeat [20; 500] 10).
Proof. apply (tank_empty_alarm_period 10 dry_machine); reflexivity. Defined.

(** ** The prime switch *)




